(** * A local task agent: plan extraction, plan execution and the session loop

    Shallow embedding of [agent.py].  The program asks a text model for a
    plan (a JSON document, possibly wrapped in a Markdown fence), shows it,
    runs its steps (shell commands and file writes) and asks for a new plan
    when a step fails or the operator is not satisfied.

    Conventions of the embedding:
    - a Python [str] is a [string] holding its UTF-8 bytes;
    - a value produced by [json.loads] is a [json] tree, a [dict] being an
      association list in insertion order with distinct keys;
    - the machine is a [world]: the files on disk, what the console has
      printed, and the answers the model and the operator are going to give;
    - code that can raise runs in the monad [M], a state monad over [world]
      whose results are either a value or a raised exception;
    - the console can write the lines the program makes of fixed words
      only; a line or a panel that shows a value of the run is rendered by
      rich, which may raise on it;
    - [json.loads], the shell, [str()] of an exception, what rich does with a
      line or a panel and the encoding of a text written to a file are
      library or operating-system behaviour: they are parameters of the
      development, and a reference platform is supplied to run the program
      on texts. *)

From Stdlib Require Import ZArith Ascii String Lia.
From stdpp Require Import base option list strings gmap.

Local Open Scope Z_scope.
Local Open Scope nat_scope.

(** ** Text: the [str] operations the program uses *)

Module Text.

(** [s.startswith(p)] *)
Fixpoint starts_with (p s : string) : bool :=
  match p with
  | EmptyString => true
  | String a p' =>
      match s with
      | EmptyString => false
      | String b s' => if Ascii.eqb a b then starts_with p' s' else false
      end
  end.

(** [s[n:]] *)
Fixpoint drop (n : nat) (s : string) : string :=
  match n with
  | O => s
  | S n' => match s with EmptyString => EmptyString | String _ s' => drop n' s' end
  end.

(** [sep in s] *)
Fixpoint contains (sep s : string) : bool :=
  starts_with sep s
  || match s with EmptyString => false | String _ s' => contains sep s' end.

(** The text before and the text after the leftmost occurrence of [sep]
    ([s.partition(sep)] without its middle component); [None] when [sep]
    does not occur. *)
Fixpoint cut (sep s : string) : option (string * string) :=
  if starts_with sep s then Some (EmptyString, drop (String.length sep) s)
  else match s with
       | EmptyString => None
       | String c s' =>
           match cut sep s' with
           | Some (a, b) => Some (String c a, b)
           | None => None
           end
       end.

(** The separator written after [before] is the first one of the text: no
    occurrence starts inside [before]. *)
Definition opens_at (sep before : string) : Prop :=
  cut sep (before +:+ sep) = Some (before, EmptyString).

(** [s.split(sep)] for a non-empty [sep]: cut at the leftmost occurrence and
    go on after it.  Every cut consumes at least one character, so
    [String.length s] rounds are enough.  (Python raises [ValueError] on an
    empty separator; the program only splits on two literal markers.) *)
Fixpoint split_rounds (n : nat) (sep s : string) : list string :=
  match n with
  | O => [s]
  | S n' =>
      match cut sep s with
      | None => [s]
      | Some (a, b) => a :: split_rounds n' sep b
      end
  end.

Definition split (sep s : string) : list string :=
  split_rounds (String.length s) sep s.

(** The last character of a text is [c]. *)
Fixpoint ends_with_char (c : ascii) (s : string) : bool :=
  match s with
  | EmptyString => false
  | String a EmptyString => Ascii.eqb a c
  | String _ s' => ends_with_char c s'
  end.

(** [str.isspace] on the UTF-8 encoding: how many bytes the white-space
    character at the head of [s] takes, [0] when the head is not white
    space.  The ASCII ones are TAB..CR, FS..US and the blank; the others are
    U+0085, U+00A0, U+1680, U+2000..U+200A, U+2028, U+2029, U+202F, U+205F
    and U+3000. *)
Definition space_width (s : string) : nat :=
  match s with
  | EmptyString => 0
  | String a r =>
      let x := nat_of_ascii a in
      if ((9 <=? x) && (x <=? 13)) || ((28 <=? x) && (x <=? 32)) then 1
      else
        match r with
        | EmptyString => 0
        | String b r' =>
            let y := nat_of_ascii b in
            if (x =? 194) && ((y =? 133) || (y =? 160)) then 2
            else
              match r' with
              | EmptyString => 0
              | String c _ =>
                  let z := nat_of_ascii c in
                  if (x =? 225) && (y =? 154) && (z =? 128) then 3
                  else if (x =? 226) && (y =? 128)
                          && (((128 <=? z) && (z <=? 138))
                              || (z =? 168) || (z =? 169) || (z =? 175)) then 3
                  else if (x =? 226) && (y =? 129) && (z =? 159) then 3
                  else if (x =? 227) && (y =? 128) && (z =? 128) then 3
                  else 0
              end
        end
  end.

(** [not s.strip()]: the text is made of white space only. *)
Fixpoint blank_rounds (n : nat) (s : string) : bool :=
  match s with
  | EmptyString => true
  | _ =>
      match n with
      | O => false
      | S n' =>
          match space_width s with
          | O => false
          | w => blank_rounds n' (drop w s)
          end
      end
  end.

Definition blank (s : string) : bool := blank_rounds (String.length s) s.

(** The characters of a text, one text per character ([list(s)]): a byte
    [10xxxxxx] continues the character before it. *)
Definition continuation (a : ascii) : bool :=
  let x := nat_of_ascii a in (128 <=? x) && (x <=? 191).

Fixpoint chars (s : string) : list string :=
  match s with
  | EmptyString => []
  | String a r =>
      match chars r with
      | String b t :: rest =>
          if continuation b then String a (String b t) :: rest
          else String a EmptyString :: String b t :: rest
      | rest => String a EmptyString :: rest
      end
  end.

End Text.

(** ** Values: what [json.loads] returns *)

(** A JSON number: Python reads a literal without fraction and exponent as an
    [int], any other as a [float]; [Dec m e] is the literal [m * 10^e] before
    it is rounded to a double.  [NaN], [Infinity] and [-Infinity] are
    accepted by [json.loads] too. *)
Inductive number :=
| Int (z : Z)
| Dec (m e : Z)
| NaN
| Inf (negative : bool).

#[warnings="-register-all"]
Inductive json :=
| JNull
| JBool (b : bool)
| JNum (n : number)
| JStr (s : string)
| JArr (items : list json)
| JObj (fields : list (string * json)).

(** What Python can raise in the modelled code. *)
Inductive exn :=
| KeyError (key : string)                (* [d[key]] on a dict without [key] *)
| IndexError                             (* list index out of range *)
| TypeError (v : json) (doing : string)  (* [v] has the wrong type for an operation *)
| AttributeError (v : json) (attr : string)
| NotRenderableError (v : json)          (* rich: a [Panel] around a non-text *)
| OSError (msg : string)
| ServiceError                           (* the model call fails *)
| EOFError                               (* the operator gives no more input *)
| JSONDecodeError                        (* [json.loads]: the text is not JSON *)
| ValueError (msg : string)
| RecursionError
| MarkupError (markup : string)          (* rich: a closing tag closes nothing *)
| UnicodeEncodeError (text : string)     (* the text cannot be encoded *)
| Beyond (what : string).                (* not an exception: see below *)

(** [Beyond] is not something Python raises.  It marks a run that leaves
    what this development describes (a file opened through a descriptor
    number, a text the reference platform cannot judge).  It passes through
    every [try] of the model, and no statement below is about a run that
    ends with it. *)
Definition catchable (e : exn) : bool :=
  match e with
  | Beyond _ => false
  | _ => true
  end.

Inductive outcome (A : Type) :=
| Ok (a : A)
| Raise (e : exn).
Arguments Ok {A} a.
Arguments Raise {A} e.

Module Py.

(** A double obtained from the decimal [m * 10^e] is zero exactly when
    [|m * 10^e| <= 2^-1075] (round to nearest, ties to even; the smallest
    positive double is [2^-1074]). *)
Definition rounds_to_zero (m e : Z) : bool :=
  ((m =? 0) || ((e <? 0) && (Z.abs m * 2 ^ 1075 <=? 10 ^ (- e))))%Z.

(** [bool(v)] *)
Definition truthy (v : json) : bool :=
  match v with
  | JNull => false
  | JBool b => b
  | JNum (Int z) => negb (z =? 0)%Z
  | JNum (Dec m e) => negb (rounds_to_zero m e)
  | JNum NaN => true
  | JNum (Inf _) => true
  | JStr s => negb (String.eqb s EmptyString)
  | JArr items => match items with [] => false | _ => true end
  | JObj fields => match fields with [] => false | _ => true end
  end.

(** The value bound to [key] in a dict. *)
Fixpoint lookup (key : string) (fields : list (string * json)) : option json :=
  match fields with
  | [] => None
  | (k, v) :: rest => if String.eqb k key then Some v else lookup key rest
  end.

(** [d[key] = v] on a dict: a key already there keeps its place. *)
Fixpoint set_item (key : string) (v : json) (fields : list (string * json))
  : list (string * json) :=
  match fields with
  | [] => [(key, v)]
  | (k, w) :: rest =>
      if String.eqb k key then (k, v) :: rest else (k, w) :: set_item key v rest
  end.

(** [v[key]] for a text [key] *)
Definition subscript (v : json) (key : string) : outcome json :=
  match v with
  | JObj fields =>
      match lookup key fields with
      | Some x => Ok x
      | None => Raise (KeyError key)
      end
  | _ => Raise (TypeError v "subscript")
  end.

(** [v.get(key, default)] *)
Definition get (v : json) (key : string) (default : json) : outcome json :=
  match v with
  | JObj fields =>
      match lookup key fields with
      | Some x => Ok x
      | None => Ok default
      end
  | _ => Raise (AttributeError v "get")
  end.

(** [key in v] for a text [key]: a key of a dict, an item of a list, a
    substring of a text. *)
Definition has (key : string) (v : json) : outcome bool :=
  match v with
  | JObj fields => Ok (match lookup key fields with Some _ => true | None => false end)
  | JArr items =>
      Ok (existsb (fun x => match x with JStr s => String.eqb s key | _ => false end) items)
  | JStr s => Ok (Text.contains key s)
  | _ => Raise (TypeError v "in")
  end.

(** The items a [for] loop over [v] visits. *)
Definition iterate (v : json) : outcome (list json) :=
  match v with
  | JArr items => Ok items
  | JObj fields => Ok (map (fun kv => JStr (fst kv)) fields)
  | JStr s => Ok (map JStr (Text.chars s))
  | _ => Raise (TypeError v "iter")
  end.

(** [l[i]] on a list. *)
Definition item {A : Type} (l : list A) (i : nat) : outcome A :=
  match nth_error l i with
  | Some x => Ok x
  | None => Raise IndexError
  end.

End Py.

(** ** The machine *)

(** The part of the machine a shell command can touch: the content of each
    file, and the paths the operating system refuses to open for writing,
    with the message of its error. *)
Record disk := Disk {
  files : gmap string string;
  refused : gmap string string
}.

(** What [subprocess.run(..., capture_output=True)] gives back. *)
Record completed := Completed {
  returncode : Z;
  stdout : string;
  stderr : string
}.

(** The two requests the program sends to the model. *)
Inductive prompt :=
| PlanPrompt (task : string)
| RefinePrompt (task error_details : string).

(** What happens, in order: lines and panels on the console, commands run,
    files written, questions put to the operator and requests sent to the
    model.  A value formatted into a line is kept as the value. *)
Inductive event :=
(* execute_plan *)
| ExecutingStep (i : nat) (description : json)
| ExecutingCommand (command : string)
| Ran (command : string)
| CommandOutput (stdout : string)
| CommandSucceeded
| CommandError (stderr : string)
| CommandFailed
| CreatingFile (filename : json)
| Opened (path : string)
| Wrote (path content : string)
| FileCreated
| StepError (i : nat) (text : string)
(* display_plan *)
| TaskPlan (description : json)
| StepLine (i : nat) (description : json)
| CommandToExecute (command : string)
| CodeToSave (code : string) (filename : json)
(* get_plan and refine_plan *)
| Requested (p : prompt)
| ParseError (message : string)
| RefineParseError (message : string)
| RawResponse (text : string)
(* main *)
| Banner
| Generating
| NoValidPlan
| Asked (question : string) (answer : bool)
| Typed (question : string) (answer : string)
| PlanRejected
| ExecutingPlan
| TaskCompleted
| TaskSuccessful
| RefiningOnFeedback
| RefiningOnError
| NoRefinedPlan
| TaskFailed (message : string).

Record world := World {
  store : disk;
  log : list event;          (* oldest first *)
  replies : list string;     (* what the model will answer, call after call *)
  confirms : list bool;      (* what the operator will answer to yes/no questions *)
  typed : list string        (* what the operator will type at the prompts *)
}.

(** The library and operating-system behaviour the program relies on. *)
Class Platform := {
  (** [json.loads]: the value, or what it raises: [JSONDecodeError] for a
      text that is not JSON, and in CPython also [ValueError] for an integer
      literal of too many digits and [RecursionError] for a document nested
      too deep *)
  json_loads : string -> outcome json;
  (** the shell run by [subprocess.run(command, shell=True, text=True,
      capture_output=True)]: the completed process, or the exception raised
      when the shell cannot be started or its output cannot be decoded *)
  shell : string -> disk -> outcome completed * disk;
  (** [str(e)] *)
  str_exn : exn -> string;
  (** rich, for a line or a panel that shows a value of the run: the
      exception raised while it is rendered and written, if any.  rich reads
      the text as console markup, so a text with a closing tag that closes
      nothing, such as [[/a]], raises [MarkupError]. *)
  console : event -> option exn;
  (** the bytes a file opened in text mode receives for a text (the
      encoding of the locale, with its translation of line ends), or the
      exception raised when the text cannot be encoded *)
  encode : string -> outcome string
}.

(** ** Computations that change the world and may raise *)

Definition M (A : Type) : Type := world -> outcome A * world.

Definition ret {A} (a : A) : M A := fun w => (Ok a, w).

Definition raise {A} (e : exn) : M A := fun w => (Raise e, w).

Definition bind {A B} (m : M A) (k : A -> M B) : M B :=
  fun w =>
    match m w with
    | (Ok a, w') => k a w'
    | (Raise e, w') => (Raise e, w')
    end.

(** [try: m  except Exception as e: handler e]; every exception of the
    model is an [Exception]. *)
Definition try_except {A} (m : M A) (handler : exn -> M A) : M A :=
  fun w =>
    match m w with
    | (Ok a, w') => (Ok a, w')
    | (Raise e, w') => if catchable e then handler e w' else (Raise e, w')
    end.

Definition lift {A} (o : outcome A) : M A := fun w => (o, w).

Notation "x <- m ;; k" := (bind m (fun x => k))
  (at level 100, m at next level, right associativity).
Notation "m ;; k" := (bind m (fun _ => k))
  (at level 100, right associativity).

(** The world after one more event, and the world with another disk. *)
Definition say (e : event) (w : world) : world :=
  World (store w) (log w ++ [e]) (replies w) (confirms w) (typed w).

Definition with_store (d : disk) (w : world) : world :=
  World d (log w) (replies w) (confirms w) (typed w).

(** The world after a request to the model: the request is logged and the
    next answer, if any, is used up. *)
Definition answered (p : prompt) (w : world) : world :=
  World (store w) (log w ++ [Requested p]) (tail (replies w)) (confirms w) (typed w).

Definition emit (e : event) : M unit := fun w => (Ok tt, say e w).

Definition set_store (d : disk) : M unit := fun w => (Ok tt, with_store d w).

Definition get_store : M disk := fun w => (Ok (store w), w).

(** ** The program *)

Section Program.
Context `{platform : Platform}.

(** [model.generate_content(prompt).text]: the next answer of the model. *)
Definition generate_content (p : prompt) : M string :=
  fun w =>
    match replies w with
    | [] => (Raise ServiceError, answered p w)
    | r :: _ => (Ok r, answered p w)
    end.

(** [Confirm.ask(question)] *)
Definition confirm_ask (question : string) : M bool :=
  fun w =>
    match confirms w with
    | [] => (Raise EOFError, w)
    | b :: rest => (Ok b,
             World (store w) (log w ++ [Asked question b]) (replies w) rest (typed w))
    end.

(** [console.input(question)] *)
Definition console_input (question : string) : M string :=
  fun w =>
    match typed w with
    | [] => (Raise EOFError, w)
    | t :: rest => (Ok t,
             World (store w) (log w ++ [Typed question t]) (replies w) (confirms w) rest)
    end.

(** [console.print] of a line or of a panel that shows a value of the run:
    the platform tells whether rich raises; when it does, nothing is shown.
    The lines made of fixed words only go through [emit]: they are taken to
    print. *)
Definition print (e : event) : M unit :=
  fun w =>
    match console e with
    | Some x => (Raise x, w)
    | None => (Ok tt, say e w)
    end.

(** The body of a [Panel]: rich takes a text and raises on any other
    value. *)
Definition panel_body (v : json) : M string :=
  match v with
  | JStr s => ret s
  | _ => raise (NotRenderableError v)
  end.

(** [subprocess.run(command, shell=True, text=True, capture_output=True)] *)
Definition subprocess_run (command : string) : M completed :=
  d <- get_store ;;
  let (result, d') := shell command d in
  set_store d' ;;
  emit (Ran command) ;;
  lift result.

(** [open(filename, "w")]: the file is created or emptied, unless the path
    is one that cannot be opened.  An integer or a boolean names an open
    descriptor of the process, which is beyond this development; any other
    value that is not a text is a [TypeError]. *)
Definition open_w (filename : json) : M string :=
  match filename with
  | JStr path =>
      d <- get_store ;;
      match refused d !! path with
      | Some msg => raise (OSError msg)
      | None =>
          set_store (Disk (<[path := EmptyString]> (files d)) (refused d)) ;;
          emit (Opened path) ;;
          ret path
      end
  | JNum (Int _) | JBool _ => raise (Beyond "open: file descriptor")
  | _ => raise (TypeError filename "open")
  end.

(** [f.write(content)] followed by the closing of [f]: the text is encoded
    as a whole before any byte reaches the file, so a text that cannot be
    encoded leaves the file as [open] left it. *)
Definition write (path : string) (content : json) : M unit :=
  match content with
  | JStr text =>
      bytes <- lift (encode text) ;;
      d <- get_store ;;
      set_store (Disk (<[path := bytes]> (files d)) (refused d)) ;;
      emit (Wrote path bytes)
  | _ => raise (TypeError content "write")
  end.

(** The text the two extractors hand to [json.loads] (lines 73-76 and
    169-172): the content of the first fence tagged json, else of the first
    fence, else the response itself. *)
Definition fenced (response_text : string) : outcome string :=
  if Text.contains "```json" response_text then
    match Py.item (Text.split "```json" response_text) 1 with
    | Ok after => Py.item (Text.split "```" after) 0
    | Raise e => Raise e
    end
  else if Text.contains "```" response_text then
    match Py.item (Text.split "```" response_text) 1 with
    | Ok after => Py.item (Text.split "```" after) 0
    | Raise e => Raise e
    end
  else Ok response_text.

(** [get_plan(model, task)]; Python's [None] is the value [JNull].  The
    [except] clause names [json.JSONDecodeError]: anything else raised by
    [json.loads] leaves the function. *)
Definition get_plan (task : string) : M json :=
  response <- generate_content (PlanPrompt task) ;;
  response_text <- lift (fenced response) ;;
  match json_loads response_text with
  | Ok plan => ret plan
  | Raise JSONDecodeError =>
      print (ParseError (str_exn JSONDecodeError)) ;;
      print (RawResponse response) ;;
      ret JNull
  | Raise e => raise e
  end.

(** [refine_plan(model, task, error_details)] *)
Definition refine_plan (task error_details : string) : M json :=
  response <- generate_content (RefinePrompt task error_details) ;;
  response_text <- lift (fenced response) ;;
  match json_loads response_text with
  | Ok plan => ret plan
  | Raise JSONDecodeError =>
      print (RefineParseError (str_exn JSONDecodeError)) ;;
      print (RawResponse response) ;;
      ret JNull
  | Raise e => raise e
  end.

(** The loop of [display_plan], from step number [i] on. *)
Fixpoint display_steps (i : nat) (steps : list json) : M unit :=
  match steps with
  | [] => ret tt
  | step :: rest =>
      description <- lift (Py.subscript step "description") ;;
      print (StepLine i description) ;;
      is_command <- lift (Py.get step "is_command" (JBool false)) ;;
      (if Py.truthy is_command then
         command <- lift (Py.subscript step "command") ;;
         text <- panel_body command ;;
         print (CommandToExecute text)
       else
         has_code <- lift (Py.has "code" step) ;;
         if has_code : bool then
           code <- lift (Py.subscript step "code") ;;
           filename <- lift (Py.get step "filename" (JStr "file")) ;;
           text <- panel_body code ;;
           print (CodeToSave text filename)
         else ret tt) ;;
      display_steps (S i) rest
  end.

(** [display_plan(plan)] *)
Definition display_plan (plan : json) : M unit :=
  description <- lift (Py.subscript plan "plan_description") ;;
  print (TaskPlan description) ;;
  steps <- lift (Py.subscript plan "steps") ;;
  items <- lift (Py.iterate steps) ;;
  display_steps 1 items.

(** The [try] block of [execute_plan] for one step: [Some r] when the block
    returns [r] from the function, [None] when control reaches the end of
    the block and the loop goes on.  The panel showing the command is printed
    before the command is run, so a command that is not a text raises there
    and never reaches the shell. *)
Definition attempt (step : json) : M (option (bool * string)) :=
  is_command <- lift (Py.get step "is_command" (JBool false)) ;;
  if Py.truthy is_command then
    command <- lift (Py.subscript step "command") ;;
    text <- panel_body command ;;
    print (ExecutingCommand text) ;;
    result <- subprocess_run text ;;
    if (returncode result =? 0)%Z then
      (if Text.blank (stdout result) then ret tt
       else print (CommandOutput (stdout result))) ;;
      emit CommandSucceeded ;;
      ret None
    else
      print (CommandError (stderr result)) ;;
      emit CommandFailed ;;
      ret (Some (false, "Command failed: " +:+ stderr result))
  else
    has_code <- lift (Py.has "code" step) ;;
    if has_code : bool then
      filename <- lift (Py.get step "filename" (JStr "output.py")) ;;
      print (CreatingFile filename) ;;
      f <- open_w filename ;;
      code <- lift (Py.subscript step "code") ;;
      write f code ;;
      emit FileCreated ;;
      ret None
    else ret None.

(** One turn of the loop of [execute_plan]: the line announcing the step,
    then the guarded block.  The handler prints the error before it returns
    it, and what that print raises is not caught any more. *)
Definition execute_step (i : nat) (step : json) : M (option (bool * string)) :=
  description <- lift (Py.subscript step "description") ;;
  print (ExecutingStep i description) ;;
  try_except (attempt step)
    (fun e => print (StepError i (str_exn e)) ;; ret (Some (false, str_exn e))).

(** The loop of [execute_plan], from step number [i] on. *)
Fixpoint execute_steps (i : nat) (steps : list json) : M (bool * string) :=
  match steps with
  | [] => ret (true, "All steps completed successfully")
  | step :: rest =>
      r <- execute_step i step ;;
      match r with
      | Some result => ret result
      | None => execute_steps (S i) rest
      end
  end.

(** [execute_plan(plan)] *)
Definition execute_plan (plan : json) : M (bool * string) :=
  steps <- lift (Py.subscript plan "steps") ;;
  items <- lift (Py.iterate steps) ;;
  execute_steps 1 items.

(** How a bounded run of the [while True] loop ends. *)
Inductive ending :=
| Broke           (* a [break] was reached *)
| StillLooping.   (* the allowed number of turns was used up *)

(** The [while True] loop of [main], for at most [turns] turns. *)
Fixpoint main_loop (turns : nat) (task : string) : M ending :=
  match turns with
  | O => ret StillLooping
  | S turns' =>
      emit Generating ;;
      plan <- get_plan task ;;
      if negb (Py.truthy plan) then emit NoValidPlan ;; ret Broke
      else
        display_plan plan ;;
        approved <- confirm_ask "Do you approve this plan?" ;;
        if negb approved then emit PlanRejected ;; ret Broke
        else
          emit ExecutingPlan ;;
          r <- execute_plan plan ;;
          let (success, message) := r : bool * string in
          if success then
            emit TaskCompleted ;;
            satisfied <- confirm_ask "Was the task successful?" ;;
            if satisfied : bool then emit TaskSuccessful ;; ret Broke
            else
              error_details <- console_input "Please describe what went wrong:" ;;
              emit RefiningOnFeedback ;;
              plan <- refine_plan task error_details ;;
              if negb (Py.truthy plan) then emit NoRefinedPlan ;; ret Broke
              else main_loop turns' task
          else
            print (TaskFailed message) ;;
            emit RefiningOnError ;;
            plan <- refine_plan task message ;;
            if negb (Py.truthy plan) then emit NoRefinedPlan ;; ret Broke
            else main_loop turns' task
  end.

(** [" ".join(words)] *)
Fixpoint join_words (words : list string) : string :=
  match words with
  | [] => EmptyString
  | [w] => w
  | w :: rest => w +:+ " " +:+ join_words rest
  end.

(** [main()] with [sys.argv = argv], once the model is set up
    ([setup_api] is described on its own further down). *)
Definition main (argv : list string) (turns : nat) : M ending :=
  emit Banner ;;
  task <- match argv with
          | _ :: ((_ :: _) as args) => ret (join_words args)
          | _ => console_input "Enter the task you want to perform:"
          end ;;
  main_loop turns task.

End Program.

(** ** A reference platform, to run the program on texts *)

(** A decoder for JSON texts that follows CPython's [json.loads] with its
    default settings: the grammar of RFC 8259 with the constants [NaN],
    [Infinity] and [-Infinity], control characters refused inside strings,
    the last binding of a repeated key kept, text around the document limited
    to white space.  An integer literal of more than 4300 digits raises
    [ValueError] (the default of [sys.set_int_max_str_digits]).  CPython
    raises [RecursionError] on a document nested deeper than its stack
    allows, a bound that depends on the interpreter: the decoder reads
    documents nested up to 100 deep and answers [Beyond] on deeper ones. *)
Module Decoder.

Definition quote : ascii := ascii_of_nat 34.

Definition is_ws (c : ascii) : bool :=
  Ascii.eqb c " "%char || Ascii.eqb c "009"%char || Ascii.eqb c "010"%char || Ascii.eqb c "013"%char.

Fixpoint skip_ws (s : string) : string :=
  match s with
  | String c r => if is_ws c then skip_ws r else s
  | EmptyString => s
  end.

Definition digit (c : ascii) : option Z :=
  let x := nat_of_ascii c in
  if (48 <=? x) && (x <=? 57) then Some (Z.of_nat (x - 48)) else None.

(** The digits at the head of [s], read after [acc]: the number, how many
    digits were read, and what follows them. *)
Fixpoint digits (s : string) (acc : Z) (n : nat) : Z * nat * string :=
  match s with
  | String c r =>
      match digit c with
      | Some d => digits r (10 * acc + d)%Z (S n)
      | None => (acc, n, s)
      end
  | EmptyString => (acc, n, s)
  end.

(** The number literal at the head of [s], with the number of digits of its
    integer part: an optional minus sign, then
    zero or a run of digits not starting with zero, then optionally a point
    and at least one digit, then optionally [e] or [E], an optional sign and
    at least one digit.  A point or an exponent that is not followed by what
    it needs is left unread. *)
Definition number_at (s : string) : option (number * nat * string) :=
  let (negative, s1) :=
    match s with String "-"%char r => (true, r) | _ => (false, s) end in
  match s1 with
  | String c r =>
      match digit c with
      | None => None
      | Some d =>
          let '(whole, width, s2) := if (d =? 0)%Z then (0%Z, 1, r) else digits s1 0%Z 0 in
          let '(mantissa, places, s3) :=
            match s2 with
            | String "."%char (String c2 _ as r2) =>
                match digit c2 with
                | Some _ => digits r2 whole 0
                | None => (whole, 0, s2)
                end
            | _ => (whole, 0, s2)
            end in
          let '(power, has_power, s4) :=
            match s3 with
            | String e r3 =>
                if Ascii.eqb e "e"%char || Ascii.eqb e "E"%char then
                  let (minus, r4) :=
                    match r3 with
                    | String "-"%char r' => (true, r')
                    | String "+"%char r' => (false, r')
                    | _ => (false, r3)
                    end in
                  let '(v, n, r5) := digits r4 0%Z 0 in
                  if n =? 0 then (0%Z, false, s3)
                  else ((if minus : bool then - v else v)%Z, true, r5)
                else (0%Z, false, s3)
            | EmptyString => (0%Z, false, s3)
            end in
          let sign z := (if negative : bool then - z else z)%Z in
          if (0 <? places) || has_power
          then Some (Dec (sign mantissa) (power - Z.of_nat places), width, s4)
          else Some (Int (sign whole), width, s4)
      end
  | EmptyString => None
  end.

Definition hex (c : ascii) : option N :=
  let x := nat_of_ascii c in
  if (48 <=? x) && (x <=? 57) then Some (N.of_nat (x - 48))
  else if (97 <=? x) && (x <=? 102) then Some (N.of_nat (x - 87))
  else if (65 <=? x) && (x <=? 70) then Some (N.of_nat (x - 55))
  else None.

Definition hex4 (a b c d : ascii) : option N :=
  match hex a, hex b, hex c, hex d with
  | Some x, Some y, Some z, Some t => Some (((x * 16 + y) * 16 + z) * 16 + t)%N
  | _, _, _, _ => None
  end.

Definition escaped (c : ascii) : option ascii :=
  if Ascii.eqb c quote then Some quote
  else if Ascii.eqb c "\"%char then Some "\"%char
  else if Ascii.eqb c "/"%char then Some "/"%char
  else if Ascii.eqb c "b"%char then Some "008"%char
  else if Ascii.eqb c "f"%char then Some "012"%char
  else if Ascii.eqb c "n"%char then Some "010"%char
  else if Ascii.eqb c "r"%char then Some "013"%char
  else if Ascii.eqb c "t"%char then Some "009"%char
  else None.

(** The content of a string literal whose opening quote has been read: its
    bytes and the code units of its [\uXXXX] escapes, and what follows the
    closing quote. *)
Fixpoint literal (s : string) : option (list (ascii + N) * string) :=
  match s with
  | EmptyString => None
  | String c r =>
      if Ascii.eqb c quote then Some ([], r)
      else if Ascii.eqb c "\"%char then
        match r with
        | String e r1 =>
            if Ascii.eqb e "u"%char then
              match r1 with
              | String x1 (String x2 (String x3 (String x4 r2))) =>
                  match hex4 x1 x2 x3 x4, literal r2 with
                  | Some n, Some (l, t) => Some (inr n :: l, t)
                  | _, _ => None
                  end
              | _ => None
              end
            else
              match escaped e, literal r1 with
              | Some x, Some (l, t) => Some (inl x :: l, t)
              | _, _ => None
              end
        | EmptyString => None
        end
      else if nat_of_ascii c <? 32 then None
      else
        match literal r with
        | Some (l, t) => Some (inl c :: l, t)
        | None => None
        end
  end.

Definition byte (n : N) : ascii := ascii_of_N n.

(** UTF-8 of a code point (a lone surrogate is written the same way). *)
Definition utf8 (n : N) : string :=
  (if n <? 128 then String (byte n) EmptyString
   else if n <? 2048 then
     String (byte (192 + n / 64)) (String (byte (128 + n mod 64)) EmptyString)
   else if n <? 65536 then
     String (byte (224 + n / 4096))
       (String (byte (128 + (n / 64) mod 64)) (String (byte (128 + n mod 64)) EmptyString))
   else
     String (byte (240 + n / 262144))
       (String (byte (128 + (n / 4096) mod 64))
          (String (byte (128 + (n / 64) mod 64)) (String (byte (128 + n mod 64)) EmptyString))))%N.

(** The text of a string literal: an escaped high surrogate directly
    followed by an escaped low surrogate is one character. *)
Fixpoint assemble (l : list (ascii + N)) : string :=
  match l with
  | [] => EmptyString
  | inl c :: r => String c (assemble r)
  | inr hi :: r =>
      match r with
      | inr lo :: r' =>
          if ((55296 <=? hi) && (hi <=? 56319) && (56320 <=? lo) && (lo <=? 57343))%N
          then utf8 (65536 + (hi - 55296) * 1024 + (lo - 56320))%N +:+ assemble r'
          else utf8 hi +:+ assemble r
      | _ => utf8 hi +:+ assemble r
      end
  end.

Definition syntax_error {A} : outcome A := Raise JSONDecodeError.

Definition max_str_digits : nat := 4300.

Definition max_depth : nat := 100.

(** The value at the head of [s] and what follows it; [members] and
    [elements] read the rest of an object and of an array.  [fuel] bounds the
    number of nested and successive values, [room] the nesting. *)
Fixpoint value (fuel room : nat) (s : string) : outcome (json * string) :=
  match fuel with
  | O => Raise (Beyond "json.loads: fuel")
  | S fuel' =>
      match s with
      | EmptyString => syntax_error
      | String c r =>
          if Ascii.eqb c quote then
            match literal r with
            | Some (l, t) => Ok (JStr (assemble l), t)
            | None => syntax_error
            end
          else if Ascii.eqb c "{"%char then
            match room with
            | O => Raise (Beyond "json.loads: nesting")
            | S room' =>
                match skip_ws r with
                | String "}"%char t => Ok (JObj [], t)
                | r' => members fuel' room' r' []
                end
            end
          else if Ascii.eqb c "["%char then
            match room with
            | O => Raise (Beyond "json.loads: nesting")
            | S room' =>
                match skip_ws r with
                | String "]"%char t => Ok (JArr [], t)
                | r' => elements fuel' room' r' []
                end
            end
          else if Text.starts_with "null" s then Ok (JNull, Text.drop 4 s)
          else if Text.starts_with "true" s then Ok (JBool true, Text.drop 4 s)
          else if Text.starts_with "false" s then Ok (JBool false, Text.drop 5 s)
          else if Text.starts_with "NaN" s then Ok (JNum NaN, Text.drop 3 s)
          else if Text.starts_with "Infinity" s then Ok (JNum (Inf false), Text.drop 8 s)
          else if Text.starts_with "-Infinity" s then Ok (JNum (Inf true), Text.drop 9 s)
          else
            match number_at s with
            | Some (Int z, width, t) =>
                if max_str_digits <? width
                then Raise (ValueError "Exceeds the limit for integer string conversion")
                else Ok (JNum (Int z), t)
            | Some (n, _, t) => Ok (JNum n, t)
            | None => syntax_error
            end
      end
  end
with members (fuel room : nat) (s : string) (acc : list (string * json))
  : outcome (json * string) :=
  match fuel with
  | O => Raise (Beyond "json.loads: fuel")
  | S fuel' =>
      match s with
      | String c r =>
          if Ascii.eqb c quote then
            match literal r with
            | Some (l, r1) =>
                match skip_ws r1 with
                | String ":"%char r2 =>
                    match value fuel' room (skip_ws r2) with
                    | Ok (v, r3) =>
                        let acc' := Py.set_item (assemble l) v acc in
                        match skip_ws r3 with
                        | String "}"%char t => Ok (JObj acc', t)
                        | String ","%char t => members fuel' room (skip_ws t) acc'
                        | _ => syntax_error
                        end
                    | Raise e => Raise e
                    end
                | _ => syntax_error
                end
            | None => syntax_error
            end
          else syntax_error
      | EmptyString => syntax_error
      end
  end
with elements (fuel room : nat) (s : string) (acc : list json)
  : outcome (json * string) :=
  match fuel with
  | O => Raise (Beyond "json.loads: fuel")
  | S fuel' =>
      match value fuel' room s with
      | Ok (v, r) =>
          match skip_ws r with
          | String "]"%char t => Ok (JArr (acc ++ [v]), t)
          | String ","%char t => elements fuel' room (skip_ws t) (acc ++ [v])
          | _ => syntax_error
          end
      | Raise e => Raise e
      end
  end.

(** [json.loads(s)] *)
Definition decode (s : string) : outcome json :=
  match value (String.length s + 2) max_depth (skip_ws s) with
  | Ok (v, rest) =>
      match skip_ws rest with
      | EmptyString => Ok v
      | _ => syntax_error
      end
  | Raise e => Raise e
  end.

End Decoder.

(** Example texts are written with ['] where JSON has a double quote. *)
Fixpoint q (s : string) : string :=
  match s with
  | EmptyString => EmptyString
  | String c r => String (if Ascii.eqb c "'"%char then Decoder.quote else c) (q r)
  end.

Definition nl : string := String (ascii_of_nat 10) EmptyString.

(** A stand-in for the shell that knows [true], [false], [exit 1] and
    [echo]; any other command is not found.  It leaves the disk alone. *)
Definition demo_shell (command : string) (d : disk) : outcome completed * disk :=
  if String.eqb command "true" then (Ok (Completed 0 EmptyString EmptyString), d)
  else if String.eqb command "false" then (Ok (Completed 1 EmptyString EmptyString), d)
  else if String.eqb command "exit 1" then (Ok (Completed 1 EmptyString EmptyString), d)
  else if Text.starts_with "echo " command
  then (Ok (Completed 0 (Text.drop 5 command +:+ nl) EmptyString), d)
  else (Ok (Completed 127 EmptyString ("sh: 1: " +:+ command +:+ ": not found" +:+ nl)), d).

(** [str(e)]: the key between quotes for a [KeyError], the message of the
    operating system for an [OSError], a fixed text otherwise. *)
Definition demo_str_exn (e : exn) : string :=
  match e with
  | KeyError key => "'" +:+ key +:+ "'"
  | IndexError => "list index out of range"
  | TypeError _ doing => "bad operand type for " +:+ doing
  | AttributeError _ attr => "object has no attribute '" +:+ attr +:+ "'"
  | NotRenderableError _ => "Unable to render"
  | OSError msg => msg
  | ServiceError => "service error"
  | EOFError => "EOF when reading a line"
  | JSONDecodeError => "Expecting value"
  | ValueError msg => msg
  | RecursionError => "maximum recursion depth exceeded"
  | MarkupError markup => "closing tag in '" +:+ markup +:+ "' doesn't match any open tag"
  | UnicodeEncodeError _ => "'utf-8' codec can't encode character: surrogates not allowed"
  | Beyond what => what
  end.

(** What rich makes of a text that it reads as console markup.  rich looks
    for tags from left to right: an opening bracket, then a lower-case
    letter or one of [#], [/] and [@], then anything but an opening bracket
    up to the first closing bracket; a backslash before the opening bracket
    escapes it.  A text where no bracket starts a tag renders as it is.  A
    closing tag (one that starts with [/]) met when no tag is open raises
    [MarkupError].  The stand-in follows the text up to its first tag and
    answers in these cases; what rich does after an opening tag or an
    escaped one depends on its table of styles and is left open. *)
Inductive verdict :=
| NoTag                            (* no bracket of the text starts a tag *)
| ClosingFirst (name rest : string) (* the first tag is [[/name]], then [rest] *)
| Unknown.

Definition tag_start (c : ascii) : bool :=
  let x := nat_of_ascii c in
  ((97 <=? x) && (x <=? 122)) || (x =? 35) || (x =? 47) || (x =? 64).

(** The text up to the first closing bracket and the text after it, when no
    opening bracket comes before. *)
Fixpoint tag_body (s : string) : option (string * string) :=
  match s with
  | EmptyString => None
  | String c r =>
      if Ascii.eqb c "]"%char then Some (EmptyString, r)
      else if Ascii.eqb c "["%char then None
      else match tag_body r with
           | Some (body, rest) => Some (String c body, rest)
           | None => None
           end
  end.

Fixpoint scan (previous : ascii) (s : string) : verdict :=
  match s with
  | EmptyString => NoTag
  | String c r =>
      if Ascii.eqb c "["%char then
        match r with
        | String n r' =>
            if tag_start n then
              match tag_body r' with
              | Some (body, rest) =>
                  if Ascii.eqb previous "\"%char then Unknown
                  else if Ascii.eqb n "/"%char then ClosingFirst body rest
                  else Unknown
              | None => scan c r
              end
            else scan c r
        | EmptyString => NoTag
        end
      else scan c r
  end.

(** A text rendered where no tag of the program is open: the body of a
    panel, or the value at the end of a line. *)
Definition markup_verdict (text : string) : option exn :=
  match scan " "%char text with
  | NoTag => None
  | ClosingFirst _ _ => Some (MarkupError text)
  | Unknown => Some (Beyond "markup")
  end.

(** The same for a value formatted into a line: a text stands for itself,
    and [None], a boolean or an integer are formatted without any bracket. *)
Definition value_verdict (v : json) : option exn :=
  match v with
  | JStr text => markup_verdict text
  | JNull | JBool _ | JNum (Int _) => None
  | _ => Some (Beyond "markup")
  end.

(** A text shown between an opening tag of the program and its closing
    tag.  Without any tag it renders.  When its only tag is [[/]], that tag
    closes the tag of the program, whose own closing tag then closes
    nothing (unless a backslash at the end of the text escapes it, a case
    left open). *)
Definition enclosed_text_verdict (text : string) : option exn :=
  match scan " "%char text with
  | NoTag => None
  | ClosingFirst EmptyString rest =>
      match scan "]"%char rest with
      | NoTag =>
          if Text.ends_with_char "\"%char rest then Some (Beyond "markup")
          else Some (MarkupError text)
      | _ => Some (Beyond "markup")
      end
  | _ => Some (Beyond "markup")
  end.

Definition enclosed_verdict (v : json) : option exn :=
  match v with
  | JStr text => enclosed_text_verdict text
  | JNull | JBool _ | JNum (Int _) => None
  | _ => Some (Beyond "markup")
  end.

(** A stand-in for rich: line by line and panel by panel, as [agent.py]
    builds them. *)
Definition demo_console (e : event) : option exn :=
  match e with
  | ExecutingStep _ description => value_verdict description
  | StepLine _ description => value_verdict description
  | TaskPlan description => value_verdict description
  | ExecutingCommand text => markup_verdict text
  | CommandToExecute text => markup_verdict text
  | CommandOutput text => markup_verdict text
  | CommandError text => markup_verdict text
  | RawResponse text => markup_verdict text
  | TaskFailed message => markup_verdict message
  | CreatingFile filename => enclosed_verdict filename
  | StepError _ text => enclosed_verdict (JStr text)
  | ParseError message => enclosed_verdict (JStr message)
  | RefineParseError message => enclosed_verdict (JStr message)
  | CodeToSave code filename =>
      match markup_verdict code, value_verdict filename with
      | None, None => None
      | _, _ => Some (Beyond "markup")
      end
  | _ => None
  end.

(** The UTF-8 bytes of a lone surrogate start with [ED] and a byte from
    [A0] to [BF]. *)
Fixpoint has_surrogate (s : string) : bool :=
  match s with
  | String a (String b _ as r) =>
      ((nat_of_ascii a =? 237) && (160 <=? nat_of_ascii b) && (nat_of_ascii b <=? 191))
      || has_surrogate r
  | _ => false
  end.

(** Writing in text mode where the locale encoding is UTF-8 and line ends
    are not translated: the bytes of the text, unless it holds a lone
    surrogate. *)
Definition demo_encode (text : string) : outcome string :=
  if has_surrogate text then Raise (UnicodeEncodeError text) else Ok text.

Definition reference : Platform := {|
  json_loads := Decoder.decode;
  shell := demo_shell;
  str_exn := demo_str_exn;
  console := demo_console;
  encode := demo_encode
|}.

(** A machine with an empty disk and an empty console, where the model will
    give [answers] and the operator [yesno] and [texts]. *)
Definition boot (answers : list string) (yesno : list bool) (texts : list string)
  : world :=
  World (Disk ∅ ∅) [] answers yesno texts.

(** ** Reading a run *)

(** The steps announced on the console, with their numbers. *)
Definition announced (l : list event) : list (nat * json) :=
  flat_map (fun e => match e with ExecutingStep i d => [(i, d)] | _ => [] end) l.

(** The plans shown to the operator, by their descriptions. *)
Definition presented (l : list event) : list json :=
  flat_map (fun e => match e with TaskPlan d => [d] | _ => [] end) l.

(** The requests sent to the model. *)
Definition requests (l : list event) : list prompt :=
  flat_map (fun e => match e with Requested p => [p] | _ => [] end) l.

(** What touches the machine: a command run, a file opened or written. *)
Definition is_effect (e : event) : bool :=
  match e with
  | Ran _ | Opened _ | Wrote _ _ => true
  | _ => false
  end.

Definition effects (l : list event) : list event := List.filter is_effect l.

(** The announcements of the steps of a list, numbered from [i]. *)
Fixpoint headers (i : nat) (steps : list json) : list (nat * json) :=
  match steps with
  | [] => []
  | step :: rest =>
      match Py.subscript step "description" with
      | Ok d => (i, d) :: headers (S i) rest
      | Raise _ => []
      end
  end.

(** A computation keeps the relation [R] between the world before and the
    world after, and gives results in [P] when it does not raise. *)
Definition keeps (R : world -> world -> Prop) {A} (P : A -> Prop) (m : M A) : Prop :=
  forall w, R w (m w).2 /\ forall a, (m w).1 = Ok a -> P a.

(** Nothing was announced between two worlds. *)
Definition same_announcements (w w' : world) : Prop :=
  announced (log w') = announced (log w).

(** What the guarded block of one step can hand back: nothing, or a
    failure. *)
Definition no_success (r : option (bool * string)) : Prop :=
  forall b detail, r = Some (b, detail) -> b = false.

(** Both extractors, [get_plan] and [refine_plan], hand back [v] when the
    model answers [raw]. *)
Definition extracts `{platform : Platform} (raw : string) (v : json) : Prop :=
  forall (task details : string) (w : world) (rest : list string),
    replies w = raw :: rest ->
    (get_plan task w).1 = Ok v /\ (refine_plan task details w).1 = Ok v.

(** The console shows the line or panel [e]: rich does not raise on it. *)
Definition prints `{platform : Platform} (e : event) : Prop := console e = None.

(** A text that a fence can close: it holds no fence marker and does not end
    with a backtick. *)
Definition fence_free (d : string) : Prop :=
  Text.contains "```" d = false /\ Text.ends_with_char "`" d = false.

(** The test [step.get("is_command", False)] on the fields of a step. *)
Definition is_command (fields : list (string * json)) : bool :=
  match Py.lookup "is_command" fields with
  | Some flag => Py.truthy flag
  | None => false
  end.

(** A CommandStep of the data model: a description, a command text and a
    discriminator that holds. *)
Inductive command_step : json -> json -> string -> Prop :=
| CommandStep fields description command :
    Py.lookup "description" fields = Some description ->
    is_command fields = true ->
    Py.lookup "command" fields = Some (JStr command) ->
    command_step (JObj fields) description command.

(** A FileStep of the data model: a description, a file name and a content
    (the key [code] of the document), and a discriminator that does not
    hold. *)
Inductive file_step : json -> json -> string -> string -> Prop :=
| FileStep fields description filename content :
    Py.lookup "description" fields = Some description ->
    is_command fields = false ->
    Py.lookup "filename" fields = Some (JStr filename) ->
    Py.lookup "code" fields = Some (JStr content) ->
    file_step (JObj fields) description filename content.


(** A step with a description and a text under [code], no [filename] key,
    and a discriminator that does not hold. *)
Inductive unnamed_file_step : json -> json -> string -> Prop :=
| UnnamedFileStep fields description content :
    Py.lookup "description" fields = Some description ->
    is_command fields = false ->
    Py.lookup "filename" fields = None ->
    Py.lookup "code" fields = Some (JStr content) ->
    unnamed_file_step (JObj fields) description content.

(** ** Example steps, plans and responses *)

Definition say_hi : json :=
  JObj [("description", JStr "say hi"); ("command", JStr "echo hi");
        ("is_command", JBool true)].


Definition write_hello : json :=
  JObj [("description", JStr "write"); ("code", JStr "Hello");
        ("filename", JStr "hello.txt"); ("is_command", JBool false)].


Definition fresh : world := boot [] [] [].




Definition unnamed_code : json :=
  JObj [("description", JStr "generate"); ("code", JStr "print(1)");
        ("is_command", JBool false)].

Definition flagged_code : json :=
  JObj [("description", JStr "run"); ("command", JStr "true");
        ("code", JStr "print(1)"); ("is_command", JBool true)].

Definition missing_tool : json :=
  JObj [("description", JStr "build"); ("command", JStr "nosuch");
        ("is_command", JBool true)].

Definition echo_nothing : json :=
  JObj [("description", JStr "print an empty line"); ("command", JStr "echo ");
        ("is_command", JBool true)].

Definition undescribed_plan : json :=
  JObj [("plan_description", JStr "list the files");
        ("steps", JArr [JObj [("command", JStr "true"); ("is_command", JBool true)]])].

(** A document without any fence marker, and the same document with text
    around it. *)
Definition tidy_doc : string :=
  q "{'plan_description': 'tidy', 'steps': [{'description': 'list', 'command': 'echo hi', 'is_command': true}]}".

Definition tidy_plan : json :=
  JObj [("plan_description", JStr "tidy");
        ("steps", JArr [JObj [("description", JStr "list");
                              ("command", JStr "echo hi");
                              ("is_command", JBool true)]])].

Definition intro : string := "Here is the plan: ".

Definition outro : string := " Tell me how it went.".

(** A valid document with a fence marker inside a text. *)
Definition marked_doc : string :=
  q "{'plan_description': 'use ```1``` now', 'steps': []}".

(** A response with an untagged block and then a json-tagged block, and
    one more block that can follow them. *)
Definition first_block : string :=
  q "```
{'plan_description': 'first', 'steps': []}
```
".

Definition second_body : string :=
  q "
{'plan_description': 'second', 'steps': []}
".

Definition two_blocks : string :=
  first_block +:+ "```json" +:+ second_body +:+ "```".

Definition third_block : string :=
  q "
```json
{'plan_description': 'third', 'steps': []}
```".

(** A document whose only step has neither discriminator nor command nor
    code. *)
Definition loose_doc : string :=
  q "{'plan_description': 'p', 'steps': [{'description': 'd'}]}".

(** The three answers of the model in the example session. *)
Definition first_answer : string :=
  q "```json
{'plan_description': 'first', 'steps': [{'description': 'fail', 'command': 'false', 'is_command': true}]}
```".

Definition refined_answer : string :=
  q "{'plan_description': 'refined', 'steps': [{'description': 'ok', 'command': 'true', 'is_command': true}]}".

Definition third_answer : string :=
  q "{'plan_description': 'third', 'steps': [{'description': 'ok', 'command': 'true', 'is_command': true}]}".

Definition first_plan : json :=
  JObj [("plan_description", JStr "first");
        ("steps", JArr [JObj [("description", JStr "fail");
                              ("command", JStr "false");
                              ("is_command", JBool true)]])].

Definition refined_plan : json :=
  JObj [("plan_description", JStr "refined");
        ("steps", JArr [JObj [("description", JStr "ok");
                              ("command", JStr "true");
                              ("is_command", JBool true)]])].

(** The example session: the task comes from the command line, the operator
    says yes to everything. *)
Definition session_argv : list string := ["agent.py"; "tidy"; "up"].

Definition session_start : world :=
  boot [first_answer; refined_answer; third_answer] [true; true; true] [].

(** The example session once the refinement of the first plan has been
    received. *)
Definition after_refinement : world :=
  World (Disk ∅ ∅)
    [Banner; Generating; Requested (PlanPrompt "tidy up");
     TaskPlan (JStr "first"); StepLine 1 (JStr "fail"); CommandToExecute "false";
     Asked "Do you approve this plan?" true; ExecutingPlan;
     ExecutingStep 1 (JStr "fail"); ExecutingCommand "false"; Ran "false";
     CommandError EmptyString; CommandFailed; TaskFailed "Command failed: ";
     RefiningOnError; Requested (RefinePrompt "tidy up" "Command failed: ")]
    [third_answer] [true; true] [].

(** A machine where [hello.txt] already holds something else. *)
Definition used : world :=
  World (Disk {[ "hello.txt" := "old" ]} ∅) [] [] [] [].

(** ** More of the program: the set-up of the model *)

(** What [setup_api] prints. *)
Inductive notice :=
| KeyNotFound     (* the panel telling that no key is in the environment *)
| KeySaved.       (* the line telling that the key went to the [.env] file *)

(** [genai.GenerativeModel('gemini-2.0-flash')] after
    [genai.configure(api_key=...)]. *)
Record handle := Handle {
  api_key : string;
  model_name : string
}.

(** [with open(path, "a") as f: f.write(text)]: a missing file is created
    when the path can be opened, and the encoded text goes after what the
    file holds; a text that cannot be encoded leaves the file as [open]
    left it. *)
Definition append_file `{platform : Platform} (path text : string) : M unit :=
  d <- get_store ;;
  match refused d !! path with
  | Some msg => raise (OSError msg)
  | None =>
      let before := default EmptyString (files d !! path) in
      set_store (Disk (<[path := before]> (files d)) (refused d)) ;;
      bytes <- lift (encode text) ;;
      set_store (Disk (<[path := before +:+ bytes]> (files d)) (refused d))
  end.

(** [setup_api()], where [found] is what [os.getenv("GEMINI_API_KEY")]
    returns once [load_dotenv()] has run (the process environment and the
    search for a dotenv file are outside the model).  The key typed at the
    [getpass] prompt is the next text of the operator.  The result comes with
    the notices printed on the way.  ([genai.configure] and the construction
    of the model object are taken to return.) *)
Definition setup_api `{platform : Platform} (found : option string) (w : world)
  : list notice * (outcome handle * world) :=
  match found with
  | Some (String c key) =>
      ([], (Ok (Handle (String c key) "gemini-2.0-flash"), w))
  | _ =>
      match console_input "Enter your Gemini API key: " w with
      | (Raise e, w1) => ([KeyNotFound], (Raise e, w1))
      | (Ok key, w1) =>
          match append_file ".env" (nl +:+ "GEMINI_API_KEY=" +:+ key) w1 with
          | (Raise e, w2) => ([KeyNotFound], (Raise e, w2))
          | (Ok _, w2) =>
              ([KeyNotFound; KeySaved], (Ok (Handle key "gemini-2.0-flash"), w2))
          end
      end
  end.

(** ** The other script: [fibonacci.py] *)

Module Fibonacci.

(** A line printed by the script, or the exception that ends it. *)
Inductive line :=
| Message (text : string)
| Number (z : Z)
| Uncaught (e : exn).

(** [print(a)] turns the integer into its decimal digits, which CPython
    refuses for more than 4300 digits (the default of
    [sys.set_int_max_str_digits]). *)
Definition printable (a : Z) : bool := (Z.abs a <? 10 ^ 4300)%Z.

(** The [for] loop with [count] turns left: print [a], then
    [a, b = b, a + b]. *)
Fixpoint terms (count : nat) (a b : Z) : list line :=
  match count with
  | O => []
  | S count' =>
      if printable a then Number a :: terms count' b (a + b)%Z
      else [Uncaught (ValueError "Exceeds the limit for integer string conversion")]
  end.

(** [fibonacci(n)]: the lines it prints.  ([range(n)] has [n] turns for a
    positive [n]; Python integers do not overflow.) *)
Definition fibonacci (n : Z) : list line :=
  if (n <=? 0)%Z then [Message "Please enter a positive integer"]
  else if (n =? 1)%Z then [Number 0]
  else Message "Fibonacci sequence:" :: terms (Z.to_nat n) 0 1.

(** The Fibonacci sequence by its recurrence. *)
Fixpoint sequence (k : nat) : Z :=
  match k with
  | O => 0
  | S k' =>
      match k' with
      | O => 1
      | S k'' => sequence k' + sequence k''
      end
  end%Z.

(** The numbers among the lines. *)
Definition numbers (out : list line) : list Z :=
  flat_map (fun l => match l with Number z => [z] | _ => [] end) out.

(** The script ended on an exception. *)
Definition crashed (out : list line) : bool :=
  existsb (fun l => match l with Uncaught _ => true | _ => false end) out.

End Fibonacci.

(** ** Reading a run, continued *)

(** The commands run, and the commands shown by [display_plan]. *)
Definition ran (l : list event) : list string :=
  flat_map (fun e => match e with Ran c => [c] | _ => [] end) l.



(** Between two worlds only the console moved, and nothing it got tells of
    a command run, a file touched or a step started. *)
Definition only_prints (w w' : world) : Prop :=
  store w' = store w /\ replies w' = replies w
  /\ confirms w' = confirms w /\ typed w' = typed w
  /\ exists l, log w' = log w ++ l /\ effects l = [] /\ announced l = [].




(** ** More examples *)

(** A machine that refuses to open [hello.txt] for writing. *)
Definition locked : world :=
  World (Disk ∅ {[ "hello.txt" := "Permission denied" ]}) [] [] [] [].

(** A file step whose code is a number, and a command step without
    command. *)
Definition numeric_code : json :=
  JObj [("description", JStr "write"); ("code", JNum (Int 1));
        ("filename", JStr "hello.txt"); ("is_command", JBool false)].

Definition commandless : json :=
  JObj [("description", JStr "run"); ("is_command", JBool true)].

(** A plan whose steps all complete. *)
Definition two_steps : json :=
  JObj [("plan_description", JStr "demo"); ("steps", JArr [say_hi; write_hello])].


(** ** Examples with texts that rich or the encoder refuses *)

(** Steps whose description holds a closing markup tag with nothing to
    close: one that does nothing, one that runs a command, one that writes
    a named file and one that writes an unnamed one. *)
Definition garbled_think : json := JObj [("description", JStr "see [/a]")].

Definition garbled_command : json :=
  JObj [("description", JStr "see [/a]"); ("command", JStr "true");
        ("is_command", JBool true)].

Definition garbled_write : json :=
  JObj [("description", JStr "see [/a]"); ("code", JStr "Hello");
        ("filename", JStr "hello.txt"); ("is_command", JBool false)].

Definition garbled_unnamed : json :=
  JObj [("description", JStr "see [/a]"); ("code", JStr "print(1)");
        ("is_command", JBool false)].

(** The character U+D800, a surrogate without its pair, as [json.loads]
    gives it for the escape [\ud800]. *)
Definition lone_surrogate : string :=
  String (ascii_of_nat 237) (String (ascii_of_nat 160) (String (ascii_of_nat 128) EmptyString)).

(** A document of one file step whose content is that character, and the
    step it stands for; the same step without file name. *)
Definition surrogate_doc : string :=
  q "{'description': 'write', 'code': '\ud800', 'filename': 'hello.txt', 'is_command': false}".

Definition surrogate_write : json :=
  JObj [("description", JStr "write"); ("code", JStr lone_surrogate);
        ("filename", JStr "hello.txt"); ("is_command", JBool false)].

Definition surrogate_unnamed : json :=
  JObj [("description", JStr "generate"); ("code", JStr lone_surrogate);
        ("is_command", JBool false)].

(** The response [null]: valid JSON that is no plan. *)
Definition null_doc : string := "null".

(** A command that holds the markup tag that closes the last open tag. *)
Definition slash_command : json :=
  JObj [("description", JStr "run"); ("command", JStr "echo [/]");
        ("is_command", JBool true)].

(** A response that is no JSON and holds a closing markup tag with nothing
    to close; an integer literal of 4301 digits. *)
Definition garbled_answer : string := "sorry [/b]".

Fixpoint copies (n : nat) (s : string) : string :=
  match n with
  | O => EmptyString
  | S n' => s +:+ copies n' s
  end.

Definition long_integer : string := copies 4301 "7".

(** ** Facts about texts *)

Module TextFacts.
Import Text.

Lemma app_nil (b : string) : EmptyString +:+ b = b.
Proof. reflexivity. Qed.

Lemma app_cons (c : ascii) (a b : string) : String c a +:+ b = String c (a +:+ b).
Proof. reflexivity. Qed.

Lemma app_nil_r (a : string) : a +:+ EmptyString = a.
Proof. induction a as [|c a IH]; [reflexivity|]. rewrite app_cons, IH. reflexivity. Qed.

Lemma app_assoc (a b c : string) : (a +:+ b) +:+ c = a +:+ b +:+ c.
Proof.
  induction a as [|x a IH]; [reflexivity|].
  rewrite !app_cons, IH. reflexivity.
Qed.

Lemma length_app (a b : string) :
  String.length (a +:+ b) = String.length a + String.length b.
Proof.
  induction a as [|x a IH]; [reflexivity|].
  rewrite app_cons. simpl. rewrite IH. reflexivity.
Qed.

Lemma starts_with_app (p s : string) : starts_with p (p +:+ s) = true.
Proof.
  induction p as [|a p IH]; [reflexivity|].
  rewrite app_cons. simpl. rewrite Ascii.eqb_refl. exact IH.
Qed.

Lemma drop_app (p s : string) : drop (String.length p) (p +:+ s) = s.
Proof. induction p as [|a p IH]; [reflexivity|]. rewrite app_cons. exact IH. Qed.

(** A test for a prefix reads no further than the length of the prefix. *)
Lemma starts_with_long (p u b : string) :
  String.length p <= String.length u ->
  starts_with p (u +:+ b) = starts_with p u.
Proof.
  revert u. induction p as [|a p IH]; intros u Hlen; [reflexivity|].
  destruct u as [|c u]; simpl in Hlen; [lia|].
  rewrite app_cons. simpl. destruct (Ascii.eqb a c); [|reflexivity].
  apply IH. lia.
Qed.

(** A prefix of a prefix. *)
Lemma starts_with_trans (p r s : string) :
  starts_with p r = true -> starts_with r s = true -> starts_with p s = true.
Proof.
  revert r s. induction p as [|a p IH]; intros r s Hpr Hrs; [reflexivity|].
  destruct r as [|b r]; [discriminate|].
  destruct s as [|c s]; [discriminate|].
  simpl in *.
  destruct (Ascii.eqb_spec a b) as [->|]; [|discriminate].
  destruct (Ascii.eqb b c); [|discriminate].
  eapply IH; eassumption.
Qed.

Lemma cut_here (sep s : string) :
  starts_with sep s = true ->
  cut sep s = Some (EmptyString, drop (String.length sep) s).
Proof. intros E. destruct s; simpl; rewrite E; reflexivity. Qed.

(** [cut] splits the text around one occurrence of the separator. *)
Lemma cut_app (sep s a b : string) :
  cut sep s = Some (a, b) -> s = a +:+ sep +:+ b.
Proof.
  revert a b. induction s as [|c s IH]; intros a b.
  - simpl. destruct (starts_with sep EmptyString) eqn:E; [|discriminate].
    destruct sep; [|discriminate]. intros [= <- <-]. reflexivity.
  - cbn [cut]. destruct (starts_with sep (String c s)) eqn:E.
    + intros [= <- <-]. rewrite app_nil.
      clear IH. revert E. generalize (String c s). clear c s.
      induction sep as [|x sep IH]; intros s E; [reflexivity|].
      destruct s as [|y s]; [discriminate|]. simpl in E.
      destruct (Ascii.eqb_spec x y) as [->|]; [|discriminate].
      rewrite app_cons. cbn [String.length drop]. f_equal. apply IH, E.
    + destruct (cut sep s) as [[a' b']|]; [|discriminate].
      intros [= <- <-]. rewrite app_cons. f_equal. apply IH. reflexivity.
Qed.

Lemma cut_length (sep s a b : string) :
  cut sep s = Some (a, b) ->
  String.length s = String.length a + String.length sep + String.length b.
Proof. intros Hc. rewrite (cut_app _ _ _ _ Hc), !length_app. lia. Qed.

(** [sep in s] holds exactly when [s] can be cut. *)
Lemma contains_cut (sep s : string) :
  contains sep s = match cut sep s with Some _ => true | None => false end.
Proof.
  induction s as [|c s IH].
  - simpl. destruct (starts_with sep EmptyString); reflexivity.
  - cbn [contains cut]. destruct (starts_with sep (String c s)); [reflexivity|].
    rewrite IH. simpl. destruct (cut sep s) as [[? ?]|]; reflexivity.
Qed.

Lemma contains_prefix (p r s : string) :
  starts_with p r = true -> contains p s = false -> contains r s = false.
Proof.
  intros Hpr. induction s as [|c s IH]; cbn [contains]; intros Hc.
  - apply orb_false_elim in Hc as [Hc _].
    destruct (starts_with r EmptyString) eqn:E; [|reflexivity].
    rewrite (starts_with_trans _ _ _ Hpr E) in Hc. discriminate.
  - apply orb_false_elim in Hc as [Hc1 Hc2]. rewrite (IH Hc2).
    destruct (starts_with r (String c s)) eqn:E; [|reflexivity].
    rewrite (starts_with_trans _ _ _ Hpr E) in Hc1. discriminate.
Qed.

Lemma opens_at_cut (sep a b : string) :
  sep <> EmptyString -> opens_at sep a -> cut sep (a +:+ sep +:+ b) = Some (a, b).
Proof.
  intros Hsep. unfold opens_at. induction a as [|c a IH]; intros Ho.
  - rewrite app_nil, cut_here by apply starts_with_app.
    rewrite drop_app. reflexivity.
  - assert (Hs : starts_with sep (String c (a +:+ sep +:+ b))
                 = starts_with sep (String c (a +:+ sep))).
    { rewrite <- app_assoc.
      change (String c ((a +:+ sep) +:+ b)) with (String c (a +:+ sep) +:+ b).
      apply starts_with_long. simpl. rewrite length_app. lia. }
    rewrite app_cons in *. cbn [cut] in *. rewrite Hs.
    destruct (starts_with sep (String c (a +:+ sep))); [discriminate|].
    destruct (cut sep (a +:+ sep)) as [[a' b']|] eqn:E; [|discriminate].
    injection Ho as -> ->. rewrite IH by reflexivity. reflexivity.
Qed.

Lemma opens_at_free (sep a : string) :
  sep <> EmptyString -> opens_at sep a -> contains sep a = false.
Proof.
  intros Hsep. unfold opens_at. induction a as [|c a IH]; intros Ho.
  - destruct sep; [congruence|reflexivity].
  - rewrite app_cons in Ho. cbn [cut contains] in *.
    destruct (starts_with sep (String c (a +:+ sep))) eqn:E; [discriminate|].
    destruct (cut sep (a +:+ sep)) as [[a' b']|] eqn:E'; [|discriminate].
    injection Ho as -> ->. rewrite IH by reflexivity.
    destruct (starts_with sep (String c a)) eqn:E2; [|reflexivity].
    rewrite <- app_cons in E.
    destruct (Nat.le_gt_cases (String.length sep) (String.length (String c a))) as [Hl|Hl].
    + rewrite starts_with_long in E by exact Hl. congruence.
    + exfalso. clear -E2 Hl. revert E2 Hl. generalize (String c a). clear.
      induction sep as [|x sep IH]; intros s E Hl; [simpl in Hl; lia|].
      destruct s as [|y s]; [discriminate|]. simpl in *.
      destruct (Ascii.eqb x y); [|discriminate]. apply (IH s E). lia.
Qed.

(** Enough rounds: more change nothing. *)
Lemma split_rounds_enough (sep : string) :
  sep <> EmptyString ->
  forall n m s, String.length s <= n -> String.length s <= m ->
  split_rounds n sep s = split_rounds m sep s.
Proof.
  intros Hsep. induction n as [|n IH]; intros m s Hn Hm.
  - destruct s; [|simpl in Hn; lia]. destruct m; simpl; [reflexivity|].
    destruct (starts_with sep EmptyString) eqn:E; [|reflexivity].
    destruct sep; [congruence|discriminate].
  - cbn [split_rounds]. destruct (cut sep s) as [[a b]|] eqn:E.
    + pose proof (cut_length _ _ _ _ E) as Hl.
      assert (0 < String.length sep) by (destruct sep; [congruence|simpl; lia]).
      destruct m as [|m]; [lia|]. cbn [split_rounds]. rewrite E.
      f_equal. apply IH; lia.
    + destruct m; cbn [split_rounds]; [reflexivity|]. rewrite E. reflexivity.
Qed.

Lemma split_cut (sep s a b : string) :
  sep <> EmptyString -> cut sep s = Some (a, b) ->
  split sep s = a :: split sep b.
Proof.
  intros Hsep E. unfold split.
  pose proof (cut_length _ _ _ _ E) as Hl.
  assert (0 < String.length sep) by (destruct sep; [congruence|simpl; lia]).
  destruct (String.length s) as [|n] eqn:En; [lia|].
  cbn [split_rounds]. rewrite E. f_equal.
  apply split_rounds_enough; [exact Hsep|lia|lia].
Qed.

Lemma split_none (sep s : string) :
  cut sep s = None -> split sep s = [s].
Proof.
  intros E. unfold split. destruct (String.length s); cbn [split_rounds];
    [reflexivity|]. rewrite E. reflexivity.
Qed.

(** *** The two fence markers *)

Lemma fence_not_empty : "```" <> EmptyString.
Proof. discriminate. Qed.

Lemma json_fence_not_empty : "```json" <> EmptyString.
Proof. discriminate. Qed.

(** A text without fence marker that does not end with a backtick can be
    closed by a fence: the closing fence is the first marker. *)
Lemma opens_at_fence (d : string) :
  contains "```" d = false -> ends_with_char "`" d = false -> opens_at "```" d.
Proof.
  unfold opens_at. induction d as [|c d IH]; intros Hc He; [reflexivity|].
  rewrite app_cons. cbn [cut].
  cbn [contains] in Hc. apply orb_false_elim in Hc as [Hc1 Hc2].
  assert (He' : ends_with_char "`" d = false).
  { destruct d; [reflexivity|exact He]. }
  rewrite (IH Hc2 He').
  destruct (starts_with "```" (String c (d +:+ "```"))) eqn:E; [exfalso|reflexivity].
  cbn [starts_with] in E, Hc1.
  destruct (Ascii.eqb "`" c) eqn:Ec; [|discriminate].
  destruct d as [|c2 d]; [simpl in He; rewrite Ascii.eqb_sym, Ec in He; discriminate|].
  rewrite app_cons in E.
  destruct (Ascii.eqb "`" c2) eqn:Ec2; [|discriminate].
  destruct d as [|c3 d]; [simpl in He; rewrite Ascii.eqb_sym, Ec2 in He; discriminate|].
  rewrite app_cons in E.
  destruct (Ascii.eqb "`" c3); discriminate.
Qed.

Lemma opens_at_fence_inv (d : string) :
  opens_at "```" d -> contains "```" d = false /\ ends_with_char "`" d = false.
Proof.
  intros Ho. split; [apply opens_at_free; [discriminate|exact Ho]|].
  unfold opens_at in Ho. induction d as [|c d IH]; [reflexivity|].
  rewrite app_cons in Ho. cbn [cut] in Ho.
  destruct (starts_with "```" (String c (d +:+ "```"))) eqn:E; [discriminate|].
  destruct (cut "```" (d +:+ "```")) as [[a b]|] eqn:E'; [|discriminate].
  injection Ho as -> ->. specialize (IH eq_refl).
  destruct d as [|c2 d]; [|exact IH].
  change (EmptyString +:+ "```") with "```" in E. cbn [starts_with] in E.
  cbn [ends_with_char]. rewrite Ascii.eqb_sym.
  destruct (Ascii.eqb "`" c); [|reflexivity].
  rewrite !Ascii.eqb_refl in E. discriminate.
Qed.

(** A json-tagged marker is a backtick followed by two more. *)
Lemma json_marker_backticks (u : string) :
  starts_with "```json" (String "`" u) = true -> starts_with "``" u = true.
Proof.
  intros Ht. apply (starts_with_trans "``" "``json"); [reflexivity|].
  cbn [starts_with] in Ht. change (Ascii.eqb "`" "`") with true in Ht.
  exact Ht.
Qed.

(** A text ending where a json-tagged fence starts: when the first fence
    marker of [d +:+ "```" +:+ post] is the one after [d] and no backtick
    follows it, the text before the first json-tagged marker is [d] itself
    or goes on beyond that fence. *)
Lemma before_json_fence (d post a b : string) :
  opens_at "```" d -> starts_with "`" post = false ->
  cut "```json" (d +:+ "```" +:+ post) = Some (a, b) ->
  a = d \/ exists x, cut "```" a = Some (d, x).
Proof.
  intros Ho Hp. revert a b. unfold opens_at in Ho.
  induction d as [|c d IH]; intros a b Hc.
  - change (EmptyString +:+ "```" +:+ post)
      with (String "`" (String "`" (String "`" post))) in Hc.
    cbn [cut] in Hc.
    destruct (starts_with "```json" (String "`" (String "`" (String "`" post)))) eqn:E1.
    { injection Hc as <- _. left. reflexivity. }
    destruct (starts_with "```json" (String "`" (String "`" post))) eqn:E2.
    { apply json_marker_backticks in E2.
      change (starts_with "`" post = true) in E2. congruence. }
    destruct (starts_with "```json" (String "`" post)) eqn:E3.
    { apply json_marker_backticks in E3.
      rewrite (starts_with_trans "`" "``" post eq_refl E3) in Hp. discriminate. }
    destruct (cut "```json" post) as [[a' b']|]; [|discriminate].
    injection Hc as <- _. right. exists a'. reflexivity.
  - rewrite app_cons in Ho, Hc. cbn [cut] in Ho, Hc.
    destruct (starts_with "```" (String c (d +:+ "```"))) eqn:E; [discriminate|].
    destruct (cut "```" (d +:+ "```")) as [[a0 b0]|] eqn:E0; [|discriminate].
    injection Ho as -> ->.
    assert (Hs : starts_with "```" (String c (d +:+ "```" +:+ post)) = false).
    { transitivity (starts_with "```" (String c (d +:+ "```"))); [|exact E].
      rewrite <- (app_assoc d "```" post).
      apply (starts_with_long "```" (String c (d +:+ "```")) post).
      simpl. rewrite length_app. simpl. lia. }
    destruct (starts_with "```json" (String c (d +:+ "```" +:+ post))) eqn:E1.
    { rewrite (starts_with_trans "```" "```json" _ eq_refl E1) in Hs. discriminate. }
    destruct (cut "```json" (d +:+ "```" +:+ post)) as [[a' b']|] eqn:E2; [|discriminate].
    injection Hc as <- _.
    destruct (IH eq_refl a' b' eq_refl) as [->|[x Hx]]; [left; reflexivity|].
    right. exists x. cbn [cut]. rewrite Hx.
    assert (Hs' : starts_with "```" (String c a') = false).
    { rewrite (cut_app _ _ _ _ Hx), <- (app_assoc d "```" x).
      transitivity (starts_with "```" (String c (d +:+ "```"))); [|exact E].
      apply (starts_with_long "```" (String c (d +:+ "```")) x).
      simpl. rewrite length_app. simpl. lia. }
    rewrite Hs'. reflexivity.
Qed.

End TextFacts.


(** ** Facts about the extraction of the fenced text *)

Section FenceFacts.
Import Text TextFacts.

Lemma cut_none_of_free (sep s : string) :
  contains sep s = false -> cut sep s = None.
Proof. rewrite contains_cut. destruct (cut sep s); [discriminate|reflexivity]. Qed.

Lemma contains_of_cut (sep s a b : string) :
  cut sep s = Some (a, b) -> contains sep s = true.
Proof. intros E. rewrite contains_cut, E. reflexivity. Qed.

(** The first part of a split is the text itself, or what [cut] puts before
    the separator. *)
Lemma split_first_free (s : string) :
  contains "```" s = false -> Py.item (split "```" s) 0 = Ok s.
Proof. intros E. rewrite split_none by (apply cut_none_of_free, E). reflexivity. Qed.

Lemma split_first_cut (s a b : string) :
  cut "```" s = Some (a, b) -> Py.item (split "```" s) 0 = Ok a.
Proof. intros E. rewrite (split_cut _ _ _ _ fence_not_empty E). reflexivity. Qed.

(** No fence at all: the response is used as it is. *)
Lemma fenced_bare (d : string) :
  contains "```" d = false -> fenced d = Ok d.
Proof.
  intros E. unfold fenced.
  rewrite (contains_prefix "```" "```json" d eq_refl E), E. reflexivity.
Qed.

(** An untagged fence, and no json-tagged marker anywhere: the content of
    the first fence pair is used. *)
Lemma fenced_plain (pre d post : string) :
  opens_at "```" pre -> opens_at "```" d ->
  contains "```json" (pre +:+ "```" +:+ d +:+ "```" +:+ post) = false ->
  fenced (pre +:+ "```" +:+ d +:+ "```" +:+ post) = Ok d.
Proof.
  intros Hpre Hd Hj. unfold fenced. rewrite Hj.
  pose proof (opens_at_cut "```" pre (d +:+ "```" +:+ post) fence_not_empty Hpre) as C1.
  pose proof (opens_at_cut "```" d post fence_not_empty Hd) as C2.
  rewrite (contains_of_cut _ _ _ _ C1).
  rewrite (split_cut _ _ _ _ fence_not_empty C1).
  rewrite (split_cut _ _ _ _ fence_not_empty C2).
  cbn [Py.item nth_error].
  apply split_first_free, opens_at_free; [discriminate|exact Hd].
Qed.

(** A json-tagged fence: the content of the first json-tagged fence pair is
    used, whatever stands before it, provided no backtick follows the
    closing fence. *)
Lemma fenced_json (pre d post : string) :
  opens_at "```json" pre -> opens_at "```" d -> starts_with "`" post = false ->
  fenced (pre +:+ "```json" +:+ d +:+ "```" +:+ post) = Ok d.
Proof.
  intros Hpre Hd Hp. unfold fenced.
  pose proof (opens_at_cut "```json" pre (d +:+ "```" +:+ post)
                json_fence_not_empty Hpre) as C1.
  pose proof (opens_at_cut "```" d post fence_not_empty Hd) as C2.
  rewrite (contains_of_cut _ _ _ _ C1).
  rewrite (split_cut _ _ _ _ json_fence_not_empty C1).
  destruct (cut "```json" (d +:+ "```" +:+ post)) as [[a b]|] eqn:C3.
  - rewrite (split_cut _ _ _ _ json_fence_not_empty C3). cbn [Py.item nth_error].
    destruct (before_json_fence d post a b Hd Hp C3) as [->|[x Hx]].
    + apply split_first_free, opens_at_free; [discriminate|exact Hd].
    + apply (split_first_cut _ _ _ Hx).
  - rewrite (split_none _ _ C3). cbn [Py.item nth_error].
    apply (split_first_cut _ _ _ C2).
Qed.

(** The extraction never fails with an index error. *)
Lemma fenced_total (raw : string) : exists text, fenced raw = Ok text.
Proof.
  assert (Hsplit : forall sep s, exists x l, split sep s = x :: l).
  { intros sep s. unfold split. destruct (String.length s); cbn [split_rounds];
      [eauto|]. destruct (cut sep s) as [[a b]|]; eauto. }
  assert (Hfirst : forall s, exists t, Py.item (split "```" s) 0 = Ok t).
  { intros s. destruct (Hsplit "```" s) as (x & l & ->). eauto. }
  unfold fenced.
  destruct (contains "```json" raw) eqn:E1.
  - rewrite contains_cut in E1.
    destruct (cut "```json" raw) as [[a b]|] eqn:C; [|discriminate].
    rewrite (split_cut _ _ _ _ json_fence_not_empty C).
    destruct (Hsplit "```json" b) as (x & l & ->). cbn [Py.item nth_error].
    apply Hfirst.
  - destruct (contains "```" raw) eqn:E2; [|eauto].
    rewrite contains_cut in E2.
    destruct (cut "```" raw) as [[a b]|] eqn:C; [|discriminate].
    rewrite (split_cut _ _ _ _ fence_not_empty C).
    destruct (Hsplit "```" b) as (x & l & ->). cbn [Py.item nth_error].
    apply Hfirst.
Qed.

End FenceFacts.

(** ** Facts about computations *)

Section Keeps.
Variable R : world -> world -> Prop.
Hypothesis R_refl : forall w, R w w.
Hypothesis R_trans : forall a b c, R a b -> R b c -> R a c.

Lemma keeps_ret {A} (P : A -> Prop) (a : A) : P a -> keeps R P (ret a).
Proof. intros Ha w. split; [apply R_refl|]. intros a' [= <-]. exact Ha. Qed.

Lemma keeps_raise {A} (P : A -> Prop) (e : exn) : keeps R P (raise e).
Proof. intros w. split; [apply R_refl|]. intros a' [=]. Qed.

Lemma keeps_lift {A} (P : A -> Prop) (o : outcome A) :
  (forall a, o = Ok a -> P a) -> keeps R P (lift o).
Proof. intros Ho w. split; [apply R_refl|]. exact Ho. Qed.

Lemma keeps_move {A} (P : A -> Prop) (a : A) (f : world -> world) :
  (forall w, R w (f w)) -> P a -> keeps R P (fun w => (Ok a, f w)).
Proof. intros Hf Ha w. split; [apply Hf|]. intros a' [= <-]. exact Ha. Qed.

Lemma keeps_bind {A B} (P : A -> Prop) (Q : B -> Prop) (m : M A) (k : A -> M B) :
  keeps R P m -> (forall a, P a -> keeps R Q (k a)) -> keeps R Q (bind m k).
Proof.
  intros Hm Hk w. unfold bind. destruct (Hm w) as [Hr Hp].
  destruct (m w) as [[a|e] w1]; cbn [fst snd] in *.
  - destruct (Hk a (Hp a eq_refl) w1) as [Hr' Hq].
    split; [eapply R_trans; eassumption|exact Hq].
  - split; [exact Hr|]. intros b [=].
Qed.

Lemma keeps_try {A} (P : A -> Prop) (m : M A) (h : exn -> M A) :
  keeps R P m -> (forall e, keeps R P (h e)) -> keeps R P (try_except m h).
Proof.
  intros Hm Hh w. unfold try_except. destruct (Hm w) as [Hr Hp].
  destruct (m w) as [[a|e] w1]; cbn [fst snd] in *.
  - split; [exact Hr|exact Hp].
  - destruct (catchable e); [|split; [exact Hr|intros a [=]]].
    destruct (Hh e w1) as [Hr' Hq].
    split; [eapply R_trans; eassumption|exact Hq].
Qed.

Lemma keeps_print (P : unit -> Prop) `{platform : Platform} (e : event) :
  (forall w, R w (say e w)) -> P tt -> keeps R P (print e).
Proof.
  intros Hsay Hp w. unfold print.
  destruct (console e); cbn [fst snd].
  - split; [apply R_refl|intros a [=]].
  - split; [apply Hsay|intros [] _; exact Hp].
Qed.

Lemma keeps_any {A} (P : A -> Prop) (m : M A) :
  keeps R P m -> keeps R (fun _ => True) m.
Proof. intros Hm w. split; [apply Hm|trivial]. Qed.

End Keeps.

(** ** Facts about the executor *)

Section ExecutorFacts.
Context `{platform : Platform}.

Lemma announced_app (l1 l2 : list event) :
  announced (l1 ++ l2) = announced l1 ++ announced l2.
Proof. apply flat_map_app. Qed.

Lemma same_announcements_refl (w : world) : same_announcements w w.
Proof. reflexivity. Qed.

Lemma same_announcements_trans (a b c : world) :
  same_announcements a b -> same_announcements b c -> same_announcements a c.
Proof. unfold same_announcements. congruence. Qed.

Lemma same_announcements_say (e : event) (w : world) :
  announced [e] = [] -> same_announcements w (say e w).
Proof.
  intros He. unfold same_announcements, say. cbn [log].
  rewrite announced_app, He. apply app_nil_r.
Qed.

Lemma same_announcements_store (d : disk) (w : world) :
  same_announcements w (with_store d w).
Proof. reflexivity. Qed.

(** Computations that announce no step. *)
Lemma quiet_ret {A} (P : A -> Prop) (a : A) :
  P a -> keeps same_announcements P (ret a).
Proof. apply keeps_ret, same_announcements_refl. Qed.

Lemma quiet_raise {A} (P : A -> Prop) (e : exn) :
  keeps same_announcements P (raise e).
Proof. apply keeps_raise, same_announcements_refl. Qed.

Lemma quiet_lift {A} (o : outcome A) :
  keeps same_announcements (fun _ => True) (lift o).
Proof. apply keeps_lift; [apply same_announcements_refl|trivial]. Qed.

Lemma quiet_bind {A B} (Q : B -> Prop) (m : M A) (k : A -> M B) :
  keeps same_announcements (fun _ => True) m ->
  (forall a, keeps same_announcements Q (k a)) ->
  keeps same_announcements Q (bind m k).
Proof.
  intros Hm Hk. eapply keeps_bind; [apply same_announcements_trans|exact Hm|].
  intros a _. apply Hk.
Qed.

Lemma quiet_emit (e : event) :
  announced [e] = [] -> keeps same_announcements (fun _ => True) (emit e).
Proof.
  intros He. apply keeps_move; [|trivial].
  intros w. apply same_announcements_say, He.
Qed.

Lemma quiet_print (e : event) :
  announced [e] = [] -> keeps same_announcements (fun _ => True) (print e).
Proof.
  intros He. apply keeps_print; [apply same_announcements_refl| |trivial].
  intros w. apply same_announcements_say, He.
Qed.

Lemma quiet_get_store : keeps same_announcements (fun _ => True) get_store.
Proof. intros w. split; [apply same_announcements_refl|trivial]. Qed.

Lemma quiet_set_store (d : disk) :
  keeps same_announcements (fun _ => True) (set_store d).
Proof.
  apply keeps_move; [|trivial]. intros w. apply same_announcements_store.
Qed.

Lemma no_success_none : no_success None.
Proof. intros b d [=]. Qed.

Lemma no_success_failure (detail : string) : no_success (Some (false, detail)).
Proof. intros b d [= <- _]. reflexivity. Qed.

Create HintDb quiet.
#[local] Hint Resolve quiet_raise quiet_lift quiet_get_store quiet_set_store
  no_success_none no_success_failure : quiet.

(** One step through a computation: a sequence, a branch, or a primitive. *)
Ltac quiet_step :=
  lazymatch goal with
  | |- keeps _ _ (bind _ _) => apply quiet_bind; [|intros ?]
  | |- keeps _ _ (emit _) => apply quiet_emit; reflexivity
  | |- keeps _ _ (print _) => apply quiet_print; reflexivity
  | |- keeps _ _ (ret _) => apply quiet_ret; auto with quiet
  | |- keeps _ _ (if ?b then _ else _) => destruct b
  | |- keeps _ _ (match ?x with _ => _ end) => destruct x
  | |- keeps _ _ (let (_, _) := ?x in _) => destruct x
  | |- _ => solve [auto with quiet]
  end.

(** The guarded block announces no step and never reports a success. *)
Lemma attempt_quiet (step : json) :
  keeps same_announcements no_success (attempt step).
Proof.
  unfold attempt, panel_body, subprocess_run, open_w, write.
  repeat quiet_step.
Qed.

Lemma get_is_command (fields : list (string * json)) :
  exists flag, Py.get (JObj fields) "is_command" (JBool false) = Ok flag
               /\ Py.truthy flag = is_command fields.
Proof.
  unfold Py.get, is_command.
  destruct (Py.lookup "is_command" fields) as [flag|]; eauto.
Qed.

(** A line or panel that the console shows. *)
Lemma print_shown (e : event) (w : world) :
  prints e -> print e w = (Ok tt, say e w).
Proof. unfold prints, print. intros ->. reflexivity. Qed.

(** A line or panel on which rich raises. *)
Lemma print_refused (e : event) (x : exn) (w : world) :
  console e = Some x -> print e w = (Raise x, w).
Proof. unfold print. intros ->. reflexivity. Qed.


(** A step that writes a file, named or not. *)
Lemma execute_step_writes (i : nat) (fields : list (string * json))
    (description : json) (path content bytes : string) (w : world) :
  Py.lookup "description" fields = Some description ->
  is_command fields = false ->
  Py.get (JObj fields) "filename" (JStr "output.py") = Ok (JStr path) ->
  Py.lookup "code" fields = Some (JStr content) ->
  refused (store w) !! path = None ->
  prints (ExecutingStep i description) ->
  prints (CreatingFile (JStr path)) ->
  encode content = Ok bytes ->
  execute_step i (JObj fields) w =
    (Ok None,
     say FileCreated
       (say (Wrote path bytes)
          (with_store (Disk (<[path := bytes]> (files (store w))) (refused (store w)))
             (say (Opened path)
                (say (CreatingFile (JStr path))
                   (say (ExecutingStep i description) w)))))).
Proof.
  intros Hd Hflag Hname Hcode Hfree Hline Hfile Hbytes.
  destruct (get_is_command fields) as (flag & Hget & Htruthy).
  rewrite Hflag in Htruthy.
  unfold execute_step, attempt, try_except, bind, lift, ret.
  cbn [Py.subscript]. rewrite Hd, (print_shown _ _ Hline).
  rewrite Hget, Htruthy, Hname.
  cbn [Py.subscript Py.has]. rewrite Hcode, (print_shown _ _ Hfile).
  unfold open_w, write, bind, lift, get_store, set_store, emit, ret.
  cbn [say with_store store refused files]. rewrite Hfree, Hbytes.
  cbn [say with_store store refused files log replies confirms typed].
  rewrite insert_insert_eq. reflexivity.
Qed.

(** A step that runs a command whose panels the console shows. *)
Lemma execute_step_runs (i : nat) (step description : json) (command : string)
    (w : world) (result : completed) (d : disk) :
  command_step step description command ->
  shell command (store w) = (Ok result, d) ->
  prints (ExecutingStep i description) ->
  prints (ExecutingCommand command) ->
  (returncode result = 0%Z -> Text.blank (stdout result) = false ->
   prints (CommandOutput (stdout result))) ->
  (returncode result <> 0%Z -> prints (CommandError (stderr result))) ->
  let w1 := say (Ran command)
              (with_store d
                 (say (ExecutingCommand command)
                    (say (ExecutingStep i description) w))) in
  execute_step i step w =
    if (returncode result =? 0)%Z then
      (Ok None,
       say CommandSucceeded
         (if Text.blank (stdout result) then w1
          else say (CommandOutput (stdout result)) w1))
    else
      (Ok (Some (false, "Command failed: " +:+ stderr result)),
       say CommandFailed (say (CommandError (stderr result)) w1)).
Proof.
  intros [fields dsc cmd Hd Hflag Hcmd] Hshell Hline Hpanel Hout Herr w1. subst w1.
  destruct (get_is_command fields) as (flag & Hget & Htruthy).
  rewrite Hflag in Htruthy.
  unfold execute_step, attempt, try_except, bind, lift, ret.
  cbn [Py.subscript]. rewrite Hd, (print_shown _ _ Hline).
  rewrite Hget, Htruthy, Hcmd.
  unfold panel_body, ret. rewrite (print_shown _ _ Hpanel).
  unfold subprocess_run, bind, get_store, set_store, emit, ret, lift.
  cbn [say with_store store]. rewrite Hshell.
  destruct (Z.eqb_spec (returncode result) 0) as [Hzero|Hnonzero].
  - destruct (Text.blank (stdout result)) eqn:Hblank; [reflexivity|].
    rewrite (print_shown _ _ (Hout Hzero eq_refl)). reflexivity.
  - rewrite (print_shown _ _ (Herr Hnonzero)). reflexivity.
Qed.

(** One turn of the loop: without a description it raises before anything
    happens; with one, when it returns, it has announced the step and hands
    back nothing or a failure. *)
Lemma execute_step_cases (i : nat) (step : json) (w : world) :
  match Py.subscript step "description" with
  | Raise e => execute_step i step w = (Raise e, w)
  | Ok d =>
      forall r w', execute_step i step w = (Ok r, w') ->
                   no_success r
                   /\ announced (log w') = announced (log w) ++ [(i, d)]
  end.
Proof.
  unfold execute_step, bind, lift.
  destruct (Py.subscript step "description") as [d|e]; [|reflexivity].
  intros r w'. unfold print at 1.
  destruct (console (ExecutingStep i d)); [discriminate|].
  unfold try_except.
  destruct (attempt_quiet step (say (ExecutingStep i d) w)) as [Hsame Hres].
  unfold same_announcements in Hsame. cbn [say log] in Hsame.
  rewrite announced_app in Hsame. cbn [announced flat_map app] in Hsame.
  destruct (attempt step (say (ExecutingStep i d) w)) as [[r1|e] w1];
    cbn [fst snd] in *.
  - intros [= <- <-]. split; [apply Hres; reflexivity|exact Hsame].
  - destruct (catchable e); [|discriminate].
    unfold print. destruct (console (StepError i (str_exn e))); [discriminate|].
    unfold ret. intros [= <- <-]. split.
    + intros b t [= <- _]. reflexivity.
    + cbn [say log]. rewrite announced_app. cbn [announced flat_map app].
      rewrite Hsame. apply app_nil_r.
Qed.

(** How one turn of the loop can raise: the description is missing, the
    console refuses the announcement, the guarded block raises something
    and the console refuses the line that reports it, or the run leaves the
    model. *)
Lemma execute_step_raises (i : nat) (step : json) (w w' : world) (e : exn) :
  execute_step i step w = (Raise e, w') ->
  Py.subscript step "description" = Raise e
  \/ (exists d, Py.subscript step "description" = Ok d
                /\ console (ExecutingStep i d) = Some e)
  \/ (exists x, console (StepError i (str_exn x)) = Some e)
  \/ catchable e = false.
Proof.
  unfold execute_step, bind, lift.
  destruct (Py.subscript step "description") as [d|e0]; [|intros [= -> _]; auto].
  unfold print at 1.
  destruct (console (ExecutingStep i d)) as [x|] eqn:Hline;
    [intros [= -> _]; right; left; eauto|].
  unfold try_except.
  destruct (attempt step (say (ExecutingStep i d) w)) as [[r1|x] w1];
    [discriminate|].
  destruct (catchable x) eqn:Hcatch; [|intros [= <- _]; auto].
  unfold print.
  destruct (console (StepError i (str_exn x))) as [y|] eqn:Herror;
    [|discriminate].
  intros [= <- _]. right. right. left. eauto.
Qed.

(** The loop over a list whose first part completes goes on with the rest,
    numbered after it, from the world the first part left; the steps of the
    first part have been announced in order. *)
Lemma execute_steps_app (before : list json) :
  forall (i : nat) (w w1 : world) (note : string) (rest : list json),
  execute_steps i before w = (Ok (true, note), w1) ->
  execute_steps i (before ++ rest) w = execute_steps (i + length before) rest w1
  /\ announced (log w1) = announced (log w) ++ headers i before
  /\ headers i (before ++ rest)
     = headers i before ++ headers (i + length before) rest.
Proof.
  induction before as [|s before IH]; intros i w w1 note rest Hb.
  - cbn in Hb. injection Hb as _ <-. cbn [app length headers].
    rewrite Nat.add_0_r, app_nil_r. auto.
  - cbn [app execute_steps headers length] in *.
    unfold bind at 1 in Hb. unfold bind at 1.
    pose proof (execute_step_cases i s w) as Hc.
    destruct (Py.subscript s "description") as [d|e];
      [|rewrite Hc in Hb; discriminate].
    destruct (execute_step i s w) as [[r|e] w'] eqn:Hrun; [|discriminate].
    destruct (Hc r w' eq_refl) as [Hno Hann].
    destruct r as [[b t]|].
    + cbn in Hb. injection Hb as -> _ _. discriminate (Hno true t eq_refl).
    + destruct (IH (S i) w' w1 note rest Hb) as (Hrest & Hann' & Hhead).
      replace (i + S (length before)) with (S i + length before) by lia.
      split; [exact Hrest|]. split.
      * rewrite Hann', Hann, <- app_assoc. reflexivity.
      * rewrite Hhead. reflexivity.
Qed.

(** Every run of the loop is of one of two kinds: all the steps complete,
    or some steps complete and the next one does not (it hands back a
    failure or raises). *)
Lemma execute_steps_first_stop (steps : list json) :
  forall (i : nat) (w : world),
  (exists w', execute_steps i steps w
              = (Ok (true, "All steps completed successfully"), w'))
  \/ (exists before step after w1,
        steps = before ++ step :: after
        /\ execute_steps i before w
           = (Ok (true, "All steps completed successfully"), w1)
        /\ (execute_step (i + length before) step w1).1 <> Ok None).
Proof.
  induction steps as [|s steps IH]; intros i w; [left; cbn; eauto|].
  destruct (execute_step i s w) as [o w'] eqn:Hs.
  assert (Hstop : o <> Ok None ->
            exists before step after w1,
              s :: steps = before ++ step :: after
              /\ execute_steps i before w
                 = (Ok (true, "All steps completed successfully"), w1)
              /\ (execute_step (i + length before) step w1).1 <> Ok None).
  { intros Ho. exists [], s, steps, w. cbn [app length]. rewrite Nat.add_0_r, Hs.
    auto. }
  destruct o as [[r|]|e]; [right; apply Hstop; discriminate| |right; apply Hstop; discriminate].
  destruct (IH (S i) w') as [(w2 & Hrun)|(before & step & after & w1 & -> & Hrun & Hno)].
  - left. exists w2. cbn [execute_steps]. unfold bind at 1. rewrite Hs. exact Hrun.
  - right. exists (s :: before), step, after, w1. split; [reflexivity|]. split.
    + cbn [execute_steps]. unfold bind at 1. rewrite Hs. exact Hrun.
    + cbn [length]. replace (i + S (length before)) with (S i + length before) by lia.
      exact Hno.
Qed.


End ExecutorFacts.

(** ** Facts about the extractors *)

Section ExtractorFacts.
Context `{platform : Platform}.

Lemma get_plan_run (task raw text : string) (plan : json) (rest : list string)
    (w : world) :
  replies w = raw :: rest -> fenced raw = Ok text -> json_loads text = Ok plan ->
  get_plan task w = (Ok plan, answered (PlanPrompt task) w).
Proof.
  intros Hreply Hfenced Hloads.
  unfold get_plan, generate_content, bind, lift.
  rewrite Hreply, Hfenced, Hloads. reflexivity.
Qed.

Lemma refine_plan_run (task details raw text : string) (plan : json)
    (rest : list string) (w : world) :
  replies w = raw :: rest -> fenced raw = Ok text -> json_loads text = Ok plan ->
  refine_plan task details w = (Ok plan, answered (RefinePrompt task details) w).
Proof.
  intros Hreply Hfenced Hloads.
  unfold refine_plan, generate_content, bind, lift.
  rewrite Hreply, Hfenced, Hloads. reflexivity.
Qed.

(** What both extractors hand back, from the text they select. *)
Lemma extracts_selected (raw text : string) (plan : json) :
  fenced raw = Ok text -> json_loads text = Ok plan -> extracts raw plan.
Proof.
  intros Hfenced Hloads task details w rest Hreply.
  rewrite (get_plan_run task raw text plan rest w Hreply Hfenced Hloads).
  rewrite (refine_plan_run task details raw text plan rest w Hreply Hfenced Hloads).
  split; reflexivity.
Qed.

Lemma fence_free_opens (d : string) : fence_free d -> Text.opens_at "```" d.
Proof. intros [Hc He]. apply TextFacts.opens_at_fence; assumption. Qed.

End ExtractorFacts.
(** ** The claims *)



(** C2, where the code departs from it.  One turn of the loop in which the
    plan is approved and its execution fails.  The failure line is printed
    first; when rich cannot show it, its exception ends the session there.
    Otherwise the refinement is requested with the failure message; when it
    returns nothing usable the loop ends; when it returns a plan, that plan
    is dropped and the session goes on as the loop started afresh, which
    first asks for an initial plan again. *)
Theorem refined_plan_is_not_carried_over `{platform : Platform}
    (turns : nat) (task message : string) (plan refined : json)
    (w w1 w2 w3 w4 w5 : world) :
  get_plan task (say Generating w) = (Ok plan, w1) ->
  Py.truthy plan = true ->
  display_plan plan w1 = (Ok tt, w2) ->
  confirm_ask "Do you approve this plan?" w2 = (Ok true, w3) ->
  execute_plan plan (say ExecutingPlan w3) = (Ok (false, message), w4) ->
  refine_plan task message (say RefiningOnError (say (TaskFailed message) w4))
    = (Ok refined, w5) ->
  main_loop (S turns) task w
  = match console (TaskFailed message) with
    | Some e => (Raise e, w4)
    | None =>
        if Py.truthy refined then main_loop turns task w5
        else (Ok Broke, say NoRefinedPlan w5)
    end.
Proof.
  intros Hget Htruthy Hshow Hask Hrun Hrefine.
  cbn [main_loop]. unfold bind at 1. cbn [emit].
  unfold bind at 1. rewrite Hget, Htruthy. cbn [negb].
  unfold bind at 1. rewrite Hshow.
  unfold bind at 1. rewrite Hask. cbn [negb].
  unfold bind at 1. cbn [emit].
  unfold bind at 1. rewrite Hrun.
  unfold bind at 1. unfold print at 1.
  destruct (console (TaskFailed message)) as [e|]; [reflexivity|].
  unfold bind at 1. cbn [emit].
  unfold bind at 1. rewrite Hrefine.
  destruct (Py.truthy refined); reflexivity.
Qed.

(** The same on the other way into a refinement: the plan completes and
    the operator reports that the task did not succeed. *)
Lemma refined_plan_is_not_carried_over_on_feedback `{platform : Platform}
    (turns : nat) (task note details : string) (plan refined : json)
    (w w1 w2 w3 w4 w5 w6 w7 : world) :
  get_plan task (say Generating w) = (Ok plan, w1) ->
  Py.truthy plan = true ->
  display_plan plan w1 = (Ok tt, w2) ->
  confirm_ask "Do you approve this plan?" w2 = (Ok true, w3) ->
  execute_plan plan (say ExecutingPlan w3) = (Ok (true, note), w4) ->
  confirm_ask "Was the task successful?" (say TaskCompleted w4) = (Ok false, w5) ->
  console_input "Please describe what went wrong:" w5 = (Ok details, w6) ->
  refine_plan task details (say RefiningOnFeedback w6) = (Ok refined, w7) ->
  main_loop (S turns) task w
  = if Py.truthy refined then main_loop turns task w7
    else (Ok Broke, say NoRefinedPlan w7).
Proof.
  intros Hget Htruthy Hshow Hask Hrun Hsat Hinput Hrefine.
  cbn [main_loop]. unfold bind at 1. cbn [emit].
  unfold bind at 1. rewrite Hget, Htruthy. cbn [negb].
  unfold bind at 1. rewrite Hshow.
  unfold bind at 1. rewrite Hask. cbn [negb].
  unfold bind at 1. cbn [emit].
  unfold bind at 1. rewrite Hrun.
  unfold bind at 1. cbn [emit].
  unfold bind at 1. rewrite Hsat.
  unfold bind at 1. rewrite Hinput.
  unfold bind at 1. cbn [emit].
  unfold bind at 1. rewrite Hrefine.
  destruct (Py.truthy refined); reflexivity.
Qed.

Lemma refined_plan_is_not_carried_over_witness :
  @main_loop reference 3 "tidy up" (say Banner session_start)
  = @main_loop reference 2 "tidy up" after_refinement
  /\ Decoder.decode refined_answer = Ok refined_plan
  /\ (@main reference session_argv 3 session_start).1 = Ok Broke
  /\ presented (log (@main reference session_argv 3 session_start).2)
     = [JStr "first"; JStr "third"]
  /\ requests (log (@main reference session_argv 3 session_start).2)
     = [PlanPrompt "tidy up"; RefinePrompt "tidy up" "Command failed: ";
        PlanPrompt "tidy up"].
Proof.
  split; [|repeat split; vm_compute; reflexivity].
  assert (T : Py.truthy refined_plan = true) by reflexivity.
  epose proof (@refined_plan_is_not_carried_over reference 2 "tidy up"
                 "Command failed: " first_plan refined_plan
                 (say Banner session_start) _ _ _ _ after_refinement) as E.
  specialize (E ltac:(vm_compute; reflexivity)).
  specialize (E ltac:(reflexivity)).
  specialize (E ltac:(vm_compute; reflexivity)).
  specialize (E ltac:(vm_compute; reflexivity)).
  specialize (E ltac:(vm_compute; reflexivity)).
  specialize (E ltac:(vm_compute; reflexivity)).
  assert (P : @console reference (TaskFailed "Command failed: ") = None)
    by (vm_compute; reflexivity).
  rewrite T, P in E. exact E.
Defined.

(** C3, as stated, fails: this document is valid JSON and holds a fence
    marker inside a text.  Given as it is, the extractor returns the number
    between the two markers; given inside a json-tagged or an untagged fence,
    it returns no plan. *)
Lemma marked_document_is_not_recovered :
  Decoder.decode marked_doc
    = Ok (JObj [("plan_description", JStr "use ```1``` now"); ("steps", JArr [])])
  /\ (@get_plan reference "t" (boot [marked_doc] [] [])).1 = Ok (JNum (Int 1))
  /\ (@get_plan reference "t" (boot ["```json" +:+ marked_doc +:+ "```"] [] [])).1
     = Ok JNull
  /\ (@get_plan reference "t" (boot ["```" +:+ marked_doc +:+ "```"] [] [])).1
     = Ok JNull.
Proof. repeat split; vm_compute; reflexivity. Qed.

(** C3, amended.  Take a document that [json.loads] accepts, that holds no
    fence marker and does not end with a backtick.  Both extractors return
    its plan when the response is the document itself; when the document is
    the content of the first json-tagged fence of the response and no
    backtick follows the closing fence (untagged fences may stand before it:
    the json-tagged one is preferred); and when the document is the content
    of the first fence of a response that holds no json-tagged marker. *)
Theorem same_plan_in_any_wrapping `{platform : Platform}
    (pre d post : string) (plan : json) :
  json_loads d = Ok plan ->
  fence_free d ->
  extracts d plan
  /\ (Text.opens_at "```json" pre -> Text.starts_with "`" post = false ->
      extracts (pre +:+ "```json" +:+ d +:+ "```" +:+ post) plan)
  /\ (Text.opens_at "```" pre ->
      Text.contains "```json" (pre +:+ "```" +:+ d +:+ "```" +:+ post) = false ->
      extracts (pre +:+ "```" +:+ d +:+ "```" +:+ post) plan).
Proof.
  intros Hloads Hfree.
  pose proof (fence_free_opens d Hfree) as Hd.
  split; [|split].
  - apply (extracts_selected d d plan); [apply fenced_bare, Hfree|exact Hloads].
  - intros Hpre Hpost.
    apply (extracts_selected _ d plan); [apply fenced_json; assumption|exact Hloads].
  - intros Hpre Hnone.
    apply (extracts_selected _ d plan); [apply fenced_plain; assumption|exact Hloads].
Qed.

Lemma same_plan_in_any_wrapping_witness :
  (@get_plan reference "t" (boot [tidy_doc] [] [])).1 = Ok tidy_plan
  /\ (@get_plan reference "t"
        (boot [intro +:+ "```json" +:+ tidy_doc +:+ "```" +:+ outro] [] [])).1
     = Ok tidy_plan
  /\ (@refine_plan reference "t" "it failed"
        (boot [intro +:+ "```" +:+ tidy_doc +:+ "```" +:+ outro] [] [])).1
     = Ok tidy_plan.
Proof.
  destruct (@same_plan_in_any_wrapping reference intro tidy_doc outro tidy_plan)
    as (Hbare & Hjson & Hplain);
    [vm_compute; reflexivity|split; vm_compute; reflexivity|].
  split; [|split].
  - apply (Hbare "t" "it failed" (boot [tidy_doc] [] []) []). reflexivity.
  - apply (Hjson ltac:(vm_compute; reflexivity) ltac:(vm_compute; reflexivity)
             "t" "it failed"
             (boot [intro +:+ "```json" +:+ tidy_doc +:+ "```" +:+ outro] [] []) []).
    reflexivity.
  - apply (Hplain ltac:(vm_compute; reflexivity) ltac:(vm_compute; reflexivity)
             "t" "it failed"
             (boot [intro +:+ "```" +:+ tidy_doc +:+ "```" +:+ outro] [] []) []).
    reflexivity.
Defined.

(** C4, as stated, fails.  The command [nosuch] exits with status 127 and
    the detail of the failure is not the captured error stream: it is that
    stream after the words [Command failed: ].  The command [echo ] exits
    with status 0 and its captured output, a line feed, is not shown.  And a
    command step whose description holds a closing markup tag with nothing
    to close is not run at all: rich raises on the line that announces it,
    before the guarded block, and the exception leaves the executor. *)
Lemma command_detail_is_not_the_error_stream :
  (exists err detail w',
     demo_shell "nosuch" (store fresh) = (Ok (Completed 127 EmptyString err), store fresh)
     /\ @execute_step reference 1 missing_tool fresh = (Ok (Some (false, detail)), w')
     /\ detail = "Command failed: " +:+ err
     /\ detail <> err)
  /\ (exists w',
       demo_shell "echo " (store fresh) = (Ok (Completed 0 nl EmptyString), store fresh)
       /\ @execute_step reference 1 echo_nothing fresh = (Ok None, w')
       /\ ~ In (CommandOutput nl) (log w'))
  /\ (command_step garbled_command (JStr "see [/a]") "true"
      /\ demo_shell "true" (store fresh)
         = (Ok (Completed 0 EmptyString EmptyString), store fresh)
      /\ @execute_step reference 1 garbled_command fresh
         = (Raise (MarkupError "see [/a]"), fresh)).
Proof.
  split; [|split].
  - eexists _, _, _. split; [reflexivity|]. split; [reflexivity|].
    split; [reflexivity|]. vm_compute. discriminate.
  - eexists. split; [reflexivity|]. split; [reflexivity|].
    vm_compute. intros [|[|[|[|[]]]]]; discriminate.
  - split; [constructor; reflexivity|]. split; reflexivity.
Qed.

(** C4, amended.  A CommandStep is run through the shell, once rich has
    shown its description and its command.  When the process exits with
    status zero the step completes, and the captured output is shown unless
    it is white space only; with any other status the executor shows the
    captured error stream and returns a failure whose detail is
    [Command failed: ] followed by that stream.  In both cases the disk is
    the one the command left.  (What rich cannot show makes it raise:
    the step then ends otherwise.) *)
Theorem command_step_outcome `{platform : Platform}
    (i : nat) (step d : json) (command : string) (w : world)
    (result : completed) (after : disk) :
  command_step step d command ->
  shell command (store w) = (Ok result, after) ->
  prints (ExecutingStep i d) ->
  prints (ExecutingCommand command) ->
  (returncode result = 0%Z ->
   (Text.blank (stdout result) = false -> prints (CommandOutput (stdout result))) ->
   exists w',
     execute_step i step w = (Ok None, w')
     /\ store w' = after
     /\ log w' = log w
                 ++ [ExecutingStep i d; ExecutingCommand command; Ran command]
                 ++ (if Text.blank (stdout result) then []
                     else [CommandOutput (stdout result)])
                 ++ [CommandSucceeded])
  /\ (returncode result <> 0%Z ->
      prints (CommandError (stderr result)) ->
      exists w',
        execute_step i step w
          = (Ok (Some (false, "Command failed: " +:+ stderr result)), w')
        /\ store w' = after
        /\ log w' = log w
                    ++ [ExecutingStep i d; ExecutingCommand command; Ran command;
                        CommandError (stderr result); CommandFailed]).
Proof.
  intros Hstep Hshell Hline Hpanel. split.
  - intros Hzero Hout.
    pose proof (execute_step_runs i step d command w result after Hstep Hshell
                  Hline Hpanel (fun _ => Hout)
                  (fun Hn => ltac:(destruct (Hn Hzero)))) as Hrun.
    cbv zeta in Hrun. rewrite Hzero in Hrun. cbn [Z.eqb] in Hrun.
    eexists. split; [exact Hrun|].
    destruct (Text.blank (stdout result)); cbn [say with_store store log];
      (split; [reflexivity|]); rewrite <- !app_assoc; reflexivity.
  - intros Hnonzero Herr.
    pose proof (execute_step_runs i step d command w result after Hstep Hshell
                  Hline Hpanel (fun Hz => ltac:(destruct (Hnonzero Hz)))
                  (fun _ => Herr)) as Hrun.
    cbv zeta in Hrun. apply Z.eqb_neq in Hnonzero. rewrite Hnonzero in Hrun.
    eexists. split; [exact Hrun|]. cbn [say with_store store log].
    split; [reflexivity|]. rewrite <- !app_assoc. reflexivity.
Qed.

Lemma command_step_outcome_witness :
  (exists w',
     @execute_step reference 1 say_hi fresh = (Ok None, w')
     /\ log w' = [ExecutingStep 1 (JStr "say hi"); ExecutingCommand "echo hi";
                  Ran "echo hi"; CommandOutput ("hi" +:+ nl); CommandSucceeded])
  /\ (exists w',
       @execute_step reference 1 missing_tool fresh
         = (Ok (Some (false, "Command failed: sh: 1: nosuch: not found" +:+ nl)), w')
       /\ store w' = store fresh).
Proof.
  split.
  - destruct (@command_step_outcome reference 1 say_hi (JStr "say hi") "echo hi"
                fresh (Completed 0 ("hi" +:+ nl) EmptyString) (store fresh))
      as [Hzero _];
      [constructor; reflexivity|reflexivity|reflexivity|reflexivity|].
    destruct (Hzero eq_refl ltac:(reflexivity)) as (w' & Hrun & _ & Hlog).
    exists w'. split; [exact Hrun|exact Hlog].
  - destruct (@command_step_outcome reference 1 missing_tool (JStr "build") "nosuch"
                fresh
                (Completed 127 EmptyString ("sh: 1: nosuch: not found" +:+ nl))
                (store fresh))
      as [_ Hnonzero];
      [constructor; reflexivity|reflexivity|reflexivity|reflexivity|].
    destruct (Hnonzero ltac:(discriminate) ltac:(reflexivity))
      as (w' & Hrun & Hstore & _).
    exists w'. split; [exact Hrun|exact Hstore].
Defined.

(** C5, as stated, fails.  The content of this FileStep is a lone
    surrogate, which [json.loads] accepts in a document; the path can be
    opened, the file is created, and then the content cannot be encoded: the
    step fails and the file is left empty.  And a FileStep whose description
    holds a closing markup tag with nothing to close writes nothing: rich
    raises on the line that announces it. *)
Lemma surrogate_content_is_not_written :
  (Decoder.decode surrogate_doc = Ok surrogate_write
   /\ file_step surrogate_write (JStr "write") "hello.txt" lone_surrogate
   /\ refused (store fresh) !! "hello.txt" = None
   /\ exists detail w',
        @execute_step reference 1 surrogate_write fresh = (Ok (Some (false, detail)), w')
        /\ files (store w') !! "hello.txt" = Some EmptyString)
  /\ (file_step garbled_write (JStr "see [/a]") "hello.txt" "Hello"
      /\ @execute_step reference 1 garbled_write fresh
         = (Raise (MarkupError "see [/a]"), fresh)).
Proof.
  split.
  - split; [vm_compute; reflexivity|]. split; [constructor; reflexivity|].
    split; [reflexivity|]. eexists _, _. split; reflexivity.
  - split; [constructor; reflexivity|reflexivity].
Qed.

(** C5, amended.  A FileStep whose path can be opened for writing, whose
    description and file name rich shows and whose content can be encoded:
    after the step the file at that path holds exactly the encoded content
    (the bytes of the content itself where the encoding of the locale is the
    one of the text and line ends are not translated), whatever was on the
    disk before; no other file changes and the step completes. *)
Theorem file_step_writes_content `{platform : Platform}
    (i : nat) (step d : json) (path content bytes : string) (w : world) :
  file_step step d path content ->
  refused (store w) !! path = None ->
  prints (ExecutingStep i d) ->
  prints (CreatingFile (JStr path)) ->
  encode content = Ok bytes ->
  exists w',
    execute_step i step w = (Ok None, w')
    /\ files (store w') !! path = Some bytes
    /\ files (store w') = <[path := bytes]> (files (store w)).
Proof.
  intros [fields dsc name text Hd Hflag Hname Hcode] Hfree Hline Hfile Hbytes.
  eexists. split.
  - apply (execute_step_writes i fields dsc name text bytes w Hd Hflag);
      [|exact Hcode|exact Hfree|exact Hline|exact Hfile|exact Hbytes].
    cbn [Py.get]. rewrite Hname. reflexivity.
  - cbn [say with_store store files]. split; [apply lookup_insert_eq|reflexivity].
Qed.

Lemma file_step_writes_content_witness :
  files (store used) !! "hello.txt" = Some "old"
  /\ exists w',
       @execute_step reference 1 write_hello used = (Ok None, w')
       /\ files (store w') !! "hello.txt" = Some "Hello"
       /\ files (store w') = <["hello.txt" := "Hello"]> (files (store used)).
Proof.
  split; [reflexivity|].
  apply (@file_step_writes_content reference 1 write_hello (JStr "write")
           "hello.txt" "Hello" "Hello" used).
  - constructor; reflexivity.
  - reflexivity.
  - reflexivity.
  - reflexivity.
  - reflexivity.
Defined.

(** C6, as stated, fails: the only step of this document has no
    discriminator, no command and no code, and the extractor returns the
    document with that step in it. *)
Lemma loose_step_is_returned :
  (@get_plan reference "t" (boot [loose_doc] [] [])).1
  = Ok (JObj [("plan_description", JStr "p");
              ("steps", JArr [JObj [("description", JStr "d")]])]).
Proof. vm_compute. reflexivity. Qed.

(** C6, amended.  The extractors check nothing about the document: when
    [json.loads] accepts the selected text, the value it gives is returned
    as it is, whatever its steps hold or lack, and nothing is printed. *)
Theorem get_plan_returns_what_parses `{platform : Platform}
    (task raw text : string) (rest : list string) (w : world) (plan : json) :
  replies w = raw :: rest ->
  fenced raw = Ok text ->
  json_loads text = Ok plan ->
  get_plan task w = (Ok plan, answered (PlanPrompt task) w)
  /\ forall details,
       refine_plan task details w
       = (Ok plan, answered (RefinePrompt task details) w).
Proof.
  intros Hreply Hfenced Hloads. split.
  - apply (get_plan_run task raw text plan rest w Hreply Hfenced Hloads).
  - intros details.
    apply (refine_plan_run task details raw text plan rest w Hreply Hfenced Hloads).
Qed.

Lemma get_plan_returns_what_parses_witness :
  @get_plan reference "t" (boot [loose_doc] [] [])
  = (Ok (JObj [("plan_description", JStr "p");
               ("steps", JArr [JObj [("description", JStr "d")]])]),
     answered (PlanPrompt "t") (boot [loose_doc] [] [])).
Proof.
  apply (@get_plan_returns_what_parses reference "t" loose_doc loose_doc []
           (boot [loose_doc] [] [])).
  - reflexivity.
  - vm_compute. reflexivity.
  - vm_compute. reflexivity.
Defined.

(** C7, where the code departs from it.  The lookup of the description
    that announces a step stands before the guarded block: when the steps
    [before] complete and [step] has no description (or is not an object),
    the exception of that lookup leaves [execute_plan] uncaught, from the
    world the steps before left, instead of becoming a failure result. *)
Theorem missing_description_escapes `{platform : Platform}
    (plan : json) (before after : list json) (step : json)
    (w w1 : world) (note : string) (e : exn) :
  Py.subscript plan "steps" = Ok (JArr (before ++ step :: after)) ->
  execute_steps 1 before w = (Ok (true, note), w1) ->
  Py.subscript step "description" = Raise e ->
  execute_plan plan w = (Raise e, w1).
Proof.
  intros Hplan Hbefore Hd.
  unfold execute_plan, bind, lift. rewrite Hplan. cbn [Py.iterate].
  destruct (execute_steps_app before 1 w w1 note (step :: after) Hbefore)
    as (-> & _ & _).
  cbn [execute_steps]. unfold bind at 1.
  pose proof (execute_step_cases (1 + length before) step w1) as Hc.
  rewrite Hd in Hc. rewrite Hc. reflexivity.
Qed.

Lemma missing_description_escapes_witness :
  @execute_plan reference undescribed_plan fresh
  = (Raise (KeyError "description"), fresh).
Proof.
  apply (@missing_description_escapes reference undescribed_plan []
           [] (JObj [("command", JStr "true"); ("is_command", JBool true)])
           fresh fresh "All steps completed successfully");
    reflexivity.
Defined.

(** C8, as stated, fails: in this response the first fenced block is
    untagged and the second is tagged json; the extractor takes the content
    of the second block, so a value that occurs only there is the
    description of the extracted plan. *)
Lemma second_block_is_used_when_tagged :
  two_blocks = first_block +:+ "```json" +:+ second_body +:+ "```"
  /\ Text.starts_with "```json" first_block = false
  /\ Text.starts_with "```" first_block = true
  /\ fenced two_blocks = Ok second_body
  /\ (@get_plan reference "t" (boot [two_blocks] [] [])).1
     = Ok (JObj [("plan_description", JStr "second"); ("steps", JArr [])]).
Proof. repeat split; vm_compute; reflexivity. Qed.

(** C8, amended.  The text the extractors hand to [json.loads] is the
    content of one block and nothing else of the response: the first
    json-tagged block when there is one, whatever stands before it and
    whatever follows its closing fence (not directly a backtick); the first
    untagged block when the response holds no json-tagged marker, whatever
    follows its closing fence.  When that content parses, the plan both
    extractors return is its value. *)
Theorem only_first_matching_block_is_used `{platform : Platform}
    (pre body post : string) :
  fence_free body ->
  (Text.opens_at "```json" pre -> Text.starts_with "`" post = false ->
   fenced (pre +:+ "```json" +:+ body +:+ "```" +:+ post) = Ok body
   /\ forall plan, json_loads body = Ok plan ->
        extracts (pre +:+ "```json" +:+ body +:+ "```" +:+ post) plan)
  /\ (Text.opens_at "```" pre ->
      Text.contains "```json" (pre +:+ "```" +:+ body +:+ "```" +:+ post) = false ->
      fenced (pre +:+ "```" +:+ body +:+ "```" +:+ post) = Ok body
      /\ forall plan, json_loads body = Ok plan ->
           extracts (pre +:+ "```" +:+ body +:+ "```" +:+ post) plan).
Proof.
  intros Hfree. pose proof (fence_free_opens body Hfree) as Hbody. split.
  - intros Hpre Hpost.
    assert (Hsel : fenced (pre +:+ "```json" +:+ body +:+ "```" +:+ post) = Ok body)
      by (apply fenced_json; assumption).
    split; [exact Hsel|]. intros plan Hloads.
    apply (extracts_selected _ body plan Hsel Hloads).
  - intros Hpre Hnone.
    assert (Hsel : fenced (pre +:+ "```" +:+ body +:+ "```" +:+ post) = Ok body)
      by (apply fenced_plain; assumption).
    split; [exact Hsel|]. intros plan Hloads.
    apply (extracts_selected _ body plan Hsel Hloads).
Qed.

Lemma only_first_matching_block_is_used_witness :
  (@get_plan reference "t" (boot [two_blocks +:+ third_block] [] [])).1
  = Ok (JObj [("plan_description", JStr "second"); ("steps", JArr [])]).
Proof.
  destruct (@only_first_matching_block_is_used reference
              first_block second_body third_block)
    as [Hjson _]; [split; vm_compute; reflexivity|].
  destruct (Hjson ltac:(vm_compute; reflexivity) ltac:(vm_compute; reflexivity))
    as [_ Hplan].
  apply (Hplan (JObj [("plan_description", JStr "second"); ("steps", JArr [])])
           ltac:(vm_compute; reflexivity)
           "t" "it failed" (boot [two_blocks +:+ third_block] [] []) []).
  vm_compute. reflexivity.
Defined.




(** C10, as stated, fails.  This step carries a [code] key and no
    [filename] key, but its discriminator holds, so the executor runs its
    command and writes nothing to [output.py].  A step with code and no file
    name whose content is a lone surrogate leaves [output.py] empty and
    fails, though the write was not refused; and one whose description holds
    a closing markup tag with nothing to close writes nothing, because rich
    raises on the line that announces it. *)
Lemma code_key_of_command_step_is_not_written :
  (Py.has "code" flagged_code = Ok true
   /\ Py.has "filename" flagged_code = Ok false
   /\ exists w',
        @execute_step reference 1 flagged_code fresh = (Ok None, w')
        /\ files (store w') !! "output.py" = None
        /\ effects (log w') = [Ran "true"])
  /\ (unnamed_file_step surrogate_unnamed (JStr "generate") lone_surrogate
      /\ exists detail w',
           @execute_step reference 1 surrogate_unnamed fresh
             = (Ok (Some (false, detail)), w')
           /\ files (store w') !! "output.py" = Some EmptyString)
  /\ (unnamed_file_step garbled_unnamed (JStr "see [/a]") "print(1)"
      /\ @execute_step reference 1 garbled_unnamed fresh
         = (Raise (MarkupError "see [/a]"), fresh)).
Proof.
  split; [|split].
  - split; [reflexivity|]. split; [reflexivity|].
    eexists. split; [reflexivity|]. split; reflexivity.
  - split; [constructor; reflexivity|]. eexists _, _. split; reflexivity.
  - split; [constructor; reflexivity|reflexivity].
Qed.

(** C10, amended.  A step with a description rich can show, a text under
    [code] that can be encoded, no [filename] key and a discriminator that
    is absent or does not hold: when [output.py] can be opened for writing,
    the executor writes the encoded code there, touches nothing else and the
    step completes. *)
Theorem unnamed_code_goes_to_output_py `{platform : Platform}
    (i : nat) (step d : json) (content bytes : string) (w : world) :
  unnamed_file_step step d content ->
  refused (store w) !! "output.py" = None ->
  prints (ExecutingStep i d) ->
  prints (CreatingFile (JStr "output.py")) ->
  encode content = Ok bytes ->
  exists w',
    execute_step i step w = (Ok None, w')
    /\ files (store w') = <["output.py" := bytes]> (files (store w))
    /\ effects (log w')
       = effects (log w) ++ [Opened "output.py"; Wrote "output.py" bytes].
Proof.
  intros [fields dsc text Hd Hflag Hname Hcode] Hfree Hline Hfile Hbytes.
  eexists. split.
  - apply (execute_step_writes i fields dsc "output.py" text bytes w Hd Hflag);
      [|exact Hcode|exact Hfree|exact Hline|exact Hfile|exact Hbytes].
    cbn [Py.get]. rewrite Hname. reflexivity.
  - cbn [say with_store store files log]. split; [reflexivity|].
    unfold effects. rewrite <- !app_assoc, List.filter_app. cbn.
    reflexivity.
Qed.

Lemma unnamed_code_goes_to_output_py_witness :
  exists w',
    @execute_step reference 1 unnamed_code fresh = (Ok None, w')
    /\ files (store w') = <["output.py" := "print(1)"]> (files (store fresh))
    /\ effects (log w')
       = effects (log fresh) ++ [Opened "output.py"; Wrote "output.py" "print(1)"].
Proof.
  apply (@unnamed_code_goes_to_output_py reference 1 unnamed_code (JStr "generate")
           "print(1)" "print(1)" fresh).
  - constructor; reflexivity.
  - reflexivity.
  - reflexivity.
  - reflexivity.
  - reflexivity.
Defined.
(** ** Further properties of the extractors *)

Section MoreFenceFacts.
Import Text TextFacts.

(** What [cut] puts before the separator holds no occurrence of it. *)
Lemma cut_opens (sep s a b : string) :
  sep <> EmptyString -> cut sep s = Some (a, b) -> opens_at sep a.
Proof.
  intros Hsep. revert a. unfold opens_at.
  induction s as [|c s IH]; intros a Hc.
  - destruct sep; [congruence|discriminate].
  - cbn [cut] in Hc. destruct (starts_with sep (String c s)) eqn:E.
    + injection Hc as <- _. rewrite app_nil.
      rewrite cut_here by (rewrite <- (app_nil_r sep) at 2; apply starts_with_app).
      rewrite <- (app_nil_r sep) at 2. rewrite drop_app. reflexivity.
    + destruct (cut sep s) as [[a' b']|] eqn:E'; [|discriminate].
      injection Hc as <- <-. specialize (IH a' eq_refl).
      rewrite app_cons. cbn [cut]. rewrite IH.
      assert (Hs : starts_with sep (String c (a' +:+ sep)) = false).
      { rewrite <- E, (cut_app _ _ _ _ E'), <- (app_assoc a' sep b').
        symmetry. apply (starts_with_long sep (String c (a' +:+ sep)) b').
        simpl. rewrite length_app. lia. }
      rewrite Hs. reflexivity.
Qed.

Lemma split_first_is_free (s t : string) :
  Py.item (split "```" s) 0 = Ok t -> contains "```" t = false.
Proof.
  destruct (cut "```" s) as [[a b]|] eqn:C.
  - rewrite (split_cut _ _ _ _ fence_not_empty C). intros [= <-].
    apply opens_at_free; [discriminate|].
    apply (cut_opens _ _ _ _ fence_not_empty C).
  - rewrite (split_none _ _ C). intros [= <-].
    rewrite contains_cut, C. reflexivity.
Qed.

End MoreFenceFacts.

(** X1.  Whatever the response is, the extraction hands a text to
    [json.loads] (it never fails on an index), and that text holds no fence
    marker: a document with a marker inside can never be selected whole. *)
Theorem selected_text_has_no_marker (raw : string) :
  exists text, fenced raw = Ok text /\ Text.contains "```" text = false.
Proof.
  destruct (fenced_total raw) as [text Hf]. exists text. split; [exact Hf|].
  unfold fenced in Hf.
  destruct (Text.contains "```json" raw).
  - destruct (Py.item (Text.split "```json" raw) 1) as [after|e]; [|discriminate].
    apply (split_first_is_free after text Hf).
  - destruct (Text.contains "```" raw) eqn:E.
    + destruct (Py.item (Text.split "```" raw) 1) as [after|e]; [|discriminate].
      apply (split_first_is_free after text Hf).
    + injection Hf as <-. exact E.
Qed.

(** X2.  A fence that is opened and never closed is accepted: the text
    after the opening marker is selected, up to the end of the response. *)
Theorem unclosed_fence_is_read_to_the_end (pre d : string) :
  Text.contains "```" d = false ->
  (Text.opens_at "```json" pre -> fenced (pre +:+ "```json" +:+ d) = Ok d)
  /\ (Text.opens_at "```" pre ->
      Text.contains "```json" (pre +:+ "```" +:+ d) = false ->
      fenced (pre +:+ "```" +:+ d) = Ok d).
Proof.
  intros Hd. split.
  - intros Hpre. unfold fenced.
    pose proof (TextFacts.opens_at_cut "```json" pre d
                  TextFacts.json_fence_not_empty Hpre) as C.
    rewrite (contains_of_cut _ _ _ _ C).
    rewrite (TextFacts.split_cut _ _ _ _ TextFacts.json_fence_not_empty C).
    rewrite (TextFacts.split_none "```json" d)
      by (apply cut_none_of_free, (TextFacts.contains_prefix "```" "```json" d eq_refl Hd)).
    cbn [Py.item nth_error]. apply split_first_free, Hd.
  - intros Hpre Hnone. unfold fenced. rewrite Hnone.
    pose proof (TextFacts.opens_at_cut "```" pre d TextFacts.fence_not_empty Hpre) as C.
    rewrite (contains_of_cut _ _ _ _ C).
    rewrite (TextFacts.split_cut _ _ _ _ TextFacts.fence_not_empty C).
    rewrite (TextFacts.split_none "```" d) by (apply cut_none_of_free, Hd).
    cbn [Py.item nth_error]. apply split_first_free, Hd.
Qed.

Lemma unclosed_fence_is_read_to_the_end_witness :
  fenced (intro +:+ "```json" +:+ tidy_doc) = Ok tidy_doc
  /\ fenced (intro +:+ "```" +:+ tidy_doc) = Ok tidy_doc.
Proof.
  destruct (unclosed_fence_is_read_to_the_end intro tidy_doc) as [Hjson Hplain];
    [vm_compute; reflexivity|].
  split.
  - apply Hjson. vm_compute. reflexivity.
  - apply Hplain; vm_compute; reflexivity.
Defined.

(** X3.  A response that is not JSON: both lines of the [except] clause
    are printed and the extractor returns no plan, provided rich can show
    the whole response; when it cannot, because the response holds markup
    that does not render, the exception it raises inside the [except] clause
    leaves [get_plan]. *)
Theorem unparsable_response_is_shown_or_raises `{platform : Platform}
    (task raw text : string) (rest : list string) (w : world) :
  replies w = raw :: rest ->
  fenced raw = Ok text ->
  json_loads text = Raise JSONDecodeError ->
  prints (ParseError (str_exn JSONDecodeError)) ->
  (prints (RawResponse raw) ->
   get_plan task w
   = (Ok JNull,
      say (RawResponse raw)
        (say (ParseError (str_exn JSONDecodeError)) (answered (PlanPrompt task) w))))
  /\ (forall x, console (RawResponse raw) = Some x ->
      get_plan task w
      = (Raise x,
         say (ParseError (str_exn JSONDecodeError)) (answered (PlanPrompt task) w))).
Proof.
  intros Hreply Hfenced Hloads Hline.
  unfold get_plan, generate_content, bind, lift.
  rewrite Hreply, Hfenced, Hloads, (print_shown _ _ Hline).
  split.
  - intros Hpanel. rewrite (print_shown _ _ Hpanel). reflexivity.
  - intros x Hpanel. rewrite (print_refused _ x _ Hpanel). reflexivity.
Qed.

Lemma unparsable_response_is_shown_or_raises_witness :
  (@get_plan reference "t" (boot ["sorry"] [] [])).1 = Ok JNull
  /\ (@get_plan reference "t" (boot [garbled_answer] [] [])).1
     = Raise (MarkupError garbled_answer).
Proof.
  split.
  - destruct (@unparsable_response_is_shown_or_raises reference "t" "sorry" "sorry"
                [] (boot ["sorry"] [] [])) as [Hshown _];
      [reflexivity|reflexivity|reflexivity|reflexivity|].
    rewrite (Hshown ltac:(reflexivity)). reflexivity.
  - destruct (@unparsable_response_is_shown_or_raises reference "t" garbled_answer
                garbled_answer [] (boot [garbled_answer] [] [])) as [_ Hraise];
      [reflexivity|reflexivity|reflexivity|reflexivity|].
    rewrite (Hraise (MarkupError garbled_answer) ltac:(reflexivity)). reflexivity.
Defined.

(** X4.  The [except] clause of the extractors names [JSONDecodeError]
    only: whatever else [json.loads] raises on the selected text (in
    CPython a [ValueError] for an integer of too many digits, a
    [RecursionError] for a document nested too deep) leaves [get_plan] and
    [refine_plan] uncaught, with nothing printed. *)
Theorem other_errors_of_json_loads_escape `{platform : Platform}
    (task details raw text : string) (rest : list string) (w : world) (e : exn) :
  replies w = raw :: rest ->
  fenced raw = Ok text ->
  json_loads text = Raise e ->
  e <> JSONDecodeError ->
  get_plan task w = (Raise e, answered (PlanPrompt task) w)
  /\ refine_plan task details w = (Raise e, answered (RefinePrompt task details) w).
Proof.
  intros Hreply Hfenced Hloads Hother.
  unfold get_plan, refine_plan, generate_content, bind, lift.
  rewrite Hreply, Hfenced, Hloads.
  destruct e; try (split; reflexivity). destruct (Hother eq_refl).
Qed.

Lemma other_errors_of_json_loads_escape_witness :
  String.length long_integer = 4301
  /\ @get_plan reference "t" (boot [long_integer] [] [])
     = (Raise (ValueError "Exceeds the limit for integer string conversion"),
        answered (PlanPrompt "t") (boot [long_integer] [] [])).
Proof.
  split; [vm_compute; reflexivity|].
  apply (@other_errors_of_json_loads_escape reference "t" "d" long_integer
           long_integer [] (boot [long_integer] [] [])).
  - reflexivity.
  - vm_compute. reflexivity.
  - vm_compute. reflexivity.
  - discriminate.
Defined.
(** ** Further properties of the presenter and of the executor *)

Lemma effects_app (l1 l2 : list event) :
  effects (l1 ++ l2) = effects l1 ++ effects l2.
Proof. apply List.filter_app. Qed.



(** Going through a computation that is made of sequences, branches,
    prints, returns and raises, for a relation that is reflexive,
    transitive and holds across the printing of the events met. *)
Ltac walk refl trans sayl :=
  repeat lazymatch goal with
  | |- keeps _ _ (bind _ _) =>
      eapply (keeps_bind _ trans (fun _ => True)); [|intros ? _]
  | |- keeps _ _ (try_except _ _) => apply (keeps_try _ trans); [|intros ?]
  | |- keeps _ _ (emit _) =>
      apply keeps_move; [intros ?; apply sayl; reflexivity|trivial]
  | |- keeps _ _ (print _) =>
      apply keeps_print; [exact refl|intros ?; apply sayl; reflexivity|trivial]
  | |- keeps _ _ (ret _) => apply keeps_ret; [exact refl|trivial]
  | |- keeps _ _ (raise _) => apply keeps_raise; exact refl
  | |- keeps _ _ (lift _) => apply keeps_lift; [exact refl|trivial]
  | |- keeps _ _ get_store => intros ?; split; [apply refl|trivial]
  | |- keeps _ _ (if ?b then _ else _) => destruct b
  | |- keeps _ _ (match ?x with _ => _ end) => destruct x
  end.

Section MoreRunFacts.
Context `{platform : Platform}.

(** *** Taking a run that returned apart *)

Lemma bind_ok {A B} (m : M A) (k : A -> M B) (w w' : world) (b : B) :
  bind m k w = (Ok b, w') ->
  exists a w1, m w = (Ok a, w1) /\ k a w1 = (Ok b, w').
Proof.
  unfold bind. destruct (m w) as [[a|e] w1]; [eauto|discriminate].
Qed.




(** *** Printing only *)

Lemma only_prints_refl (w : world) : only_prints w w.
Proof. repeat split. exists []. rewrite app_nil_r. auto. Qed.

Lemma only_prints_trans (a b c : world) :
  only_prints a b -> only_prints b c -> only_prints a c.
Proof.
  intros (S1 & R1 & C1 & T1 & l1 & L1 & E1 & A1)
         (S2 & R2 & C2 & T2 & l2 & L2 & E2 & A2).
  repeat split; try congruence.
  exists (l1 ++ l2).
  rewrite L2, L1, <- app_assoc, effects_app, announced_app, E1, E2, A1, A2.
  auto.
Qed.

Lemma only_prints_say (e : event) :
  effects [e] = [] -> announced [e] = [] -> forall w, only_prints w (say e w).
Proof. intros He Ha w. repeat split. exists [e]. auto. Qed.

Lemma display_steps_only_prints (steps : list json) :
  forall i, keeps only_prints (fun _ => True) (display_steps i steps).
Proof.
  induction steps as [|step rest IH]; intros i; cbn [display_steps];
    unfold panel_body;
    walk only_prints_refl only_prints_trans only_prints_say; apply IH.
Qed.

Lemma display_plan_only_prints (plan : json) :
  keeps only_prints (fun _ => True) (display_plan plan).
Proof.
  unfold display_plan. walk only_prints_refl only_prints_trans only_prints_say.
  apply display_steps_only_prints.
Qed.

(** *** What a displayed plan is made of *)




(** *** What one turn of the executor runs *)










(** *** The executor works offline *)









(** *** A run that reports a success *)

Lemma execute_steps_success (steps : list json) :
  forall (i : nat) (w w' : world) (note : string),
  execute_steps i steps w = (Ok (true, note), w') ->
  note = "All steps completed successfully"
  /\ length (headers i steps) = length steps.
Proof.
  induction steps as [|step rest IH]; intros i w w' note Hrun.
  - cbn in Hrun. injection Hrun as <- _. auto.
  - cbn [execute_steps headers] in *.
    apply bind_ok in Hrun as (r & w1 & Hstep & Hrun).
    pose proof (execute_step_cases i step w) as Hc.
    destruct (Py.subscript step "description") as [d|e];
      [|rewrite Hc in Hstep; discriminate].
    destruct (Hc r w1 Hstep) as [Hno _].
    destruct r as [[b t]|].
    + cbn in Hrun. injection Hrun as -> _ _. discriminate (Hno true t eq_refl).
    + destruct (IH (S i) w1 w' note Hrun) as [Hnote Hlen].
      split; [exact Hnote|]. cbn [length]. rewrite Hlen. reflexivity.
Qed.

(** *** A turn whose guarded block raises *)

(** The handler shows the error and returns it; when rich cannot show it,
    the exception of rich leaves the turn. *)
Lemma execute_step_handles (i : nat) (step d : json) (w w1 : world) (x : exn) :
  Py.subscript step "description" = Ok d ->
  prints (ExecutingStep i d) ->
  attempt step (say (ExecutingStep i d) w) = (Raise x, w1) ->
  catchable x = true ->
  execute_step i step w
  = match console (StepError i (str_exn x)) with
    | None => (Ok (Some (false, str_exn x)), say (StepError i (str_exn x)) w1)
    | Some y => (Raise y, w1)
    end.
Proof.
  intros Hd Hline Htry Hcatch.
  unfold execute_step. unfold bind at 1, lift. rewrite Hd.
  unfold bind at 1. rewrite (print_shown _ _ Hline).
  unfold try_except. rewrite Htry, Hcatch.
  unfold bind, print, ret. destruct (console (StepError i (str_exn x))); reflexivity.
Qed.

End MoreRunFacts.

(** X5.  Showing a plan only prints: whatever the plan is, and whether
    [display_plan] returns or raises, the disk, the pending answers of the
    model and the inputs of the operator are as before, the log has only
    grown, and nothing added to it tells of a command run, a file touched or
    a step started. *)
Theorem display_plan_touches_nothing `{platform : Platform}
    (plan : json) (w : world) :
  only_prints w (display_plan plan w).2.
Proof. apply (display_plan_only_prints plan w). Qed.

(** X6.  For a step that carries code and no file name, what the operator
    is shown and what is done differ: [display_plan] announces that the code
    will be saved in [file], and [execute_plan] writes it to [output.py] and
    leaves [file] as it was (rich showing the lines and the code being
    encodable). *)
Theorem default_file_name_shown_is_not_the_one_written `{platform : Platform}
    (i : nat) (step d : json) (content bytes : string) (w w2 : world) :
  unnamed_file_step step d content ->
  refused (store w2) !! "output.py" = None ->
  prints (StepLine i d) ->
  prints (CodeToSave content (JStr "file")) ->
  prints (ExecutingStep i d) ->
  prints (CreatingFile (JStr "output.py")) ->
  encode content = Ok bytes ->
  display_steps i [step] w
    = (Ok tt, say (CodeToSave content (JStr "file")) (say (StepLine i d) w))
  /\ exists w',
       execute_step i step w2 = (Ok None, w')
       /\ files (store w') !! "output.py" = Some bytes
       /\ files (store w') !! "file" = files (store w2) !! "file".
Proof.
  intros [fields dsc text Hd Hflag Hname Hcode] Hfree Hline Hpanel Hstep Hfile Hbytes.
  split.
  - destruct (get_is_command fields) as (flag & Hget & Htruthy).
    rewrite Hflag in Htruthy.
    cbn [display_steps]. unfold bind, lift, ret, panel_body.
    cbn [Py.subscript Py.has]. rewrite Hd, (print_shown _ _ Hline).
    rewrite Hget, Htruthy, Hcode.
    cbn [Py.get]. rewrite Hname. unfold ret. rewrite (print_shown _ _ Hpanel).
    reflexivity.
  - eexists. split.
    + apply (execute_step_writes i fields dsc "output.py" text bytes w2 Hd Hflag);
        [|exact Hcode|exact Hfree|exact Hstep|exact Hfile|exact Hbytes].
      cbn [Py.get]. rewrite Hname. reflexivity.
    + cbn [say with_store store files]. split; [apply lookup_insert_eq|].
      apply lookup_insert_ne. discriminate.
Qed.

Lemma default_file_name_shown_is_not_the_one_written_witness :
  @display_steps reference 1 [unnamed_code] fresh
    = (Ok tt, say (CodeToSave "print(1)" (JStr "file"))
                (say (StepLine 1 (JStr "generate")) fresh))
  /\ exists w',
       @execute_step reference 1 unnamed_code fresh = (Ok None, w')
       /\ files (store w') !! "output.py" = Some "print(1)"
       /\ files (store w') !! "file" = files (store fresh) !! "file".
Proof.
  apply (@default_file_name_shown_is_not_the_one_written reference 1
           unnamed_code (JStr "generate") "print(1)" "print(1)" fresh fresh).
  - constructor; reflexivity.
  - reflexivity.
  - reflexivity.
  - reflexivity.
  - reflexivity.
  - reflexivity.
  - reflexivity.
Defined.




(** X9.  The executor reports a success only when every step completed:
    then the message is the fixed one, the plan has a sequence of steps,
    and each of them was announced, in order. *)
Theorem success_means_every_step_completed `{platform : Platform}
    (plan : json) (w w' : world) (note : string) :
  execute_plan plan w = (Ok (true, note), w') ->
  note = "All steps completed successfully"
  /\ exists v steps,
       Py.subscript plan "steps" = Ok v
       /\ Py.iterate v = Ok steps
       /\ announced (log w') = announced (log w) ++ headers 1 steps
       /\ length (headers 1 steps) = length steps.
Proof.
  unfold execute_plan, bind, lift.
  destruct (Py.subscript plan "steps") as [v|]; [|discriminate].
  destruct (Py.iterate v) as [steps|] eqn:Hsteps; [|discriminate].
  intros Hrun.
  destruct (execute_steps_success steps 1 w w' note Hrun) as [Hnote Hlen].
  destruct (execute_steps_app steps 1 w w' note [] Hrun) as (_ & Hann & _).
  split; [exact Hnote|]. exists v, steps. auto.
Qed.

Lemma success_means_every_step_completed_witness :
  exists w',
    @execute_plan reference two_steps fresh
      = (Ok (true, "All steps completed successfully"), w')
    /\ announced (log w') = [(1, JStr "say hi"); (2, JStr "write")].
Proof.
  exists (@execute_plan reference two_steps fresh).2.
  split; [reflexivity|].
  destruct (@success_means_every_step_completed reference two_steps fresh
              (@execute_plan reference two_steps fresh).2
              "All steps completed successfully" eq_refl)
    as (_ & v & steps & Hv & Hsteps & Hann & _).
  injection Hv as <-. injection Hsteps as <-. rewrite Hann. reflexivity.
Defined.

(** X10.  A file step whose path cannot be opened for writing: once rich
    has shown the lines of the step and of the error, the executor returns
    a failure whose detail is the text of that error, and the disk and the
    effects are as before (no file is created). *)
Theorem refused_path_fails_the_step `{platform : Platform}
    (i : nat) (fields : list (string * json)) (d code : json)
    (path msg : string) (w : world) :
  Py.lookup "description" fields = Some d ->
  is_command fields = false ->
  Py.lookup "code" fields = Some code ->
  Py.get (JObj fields) "filename" (JStr "output.py") = Ok (JStr path) ->
  refused (store w) !! path = Some msg ->
  prints (ExecutingStep i d) ->
  prints (CreatingFile (JStr path)) ->
  prints (StepError i (str_exn (OSError msg))) ->
  exists w',
    execute_step i (JObj fields) w = (Ok (Some (false, str_exn (OSError msg))), w')
    /\ store w' = store w
    /\ effects (log w') = effects (log w).
Proof.
  intros Hd Hflag Hcode Hname Hrefused Hline Hfile Herror.
  destruct (get_is_command fields) as (flag & Hget & Htruthy).
  rewrite Hflag in Htruthy.
  rewrite (execute_step_handles i (JObj fields) d w
             (say (CreatingFile (JStr path)) (say (ExecutingStep i d) w))
             (OSError msg)); [| |exact Hline| |reflexivity].
  - rewrite Herror. eexists. split; [reflexivity|]. split; [reflexivity|].
    cbn [say log]. rewrite !effects_app. cbn. rewrite !app_nil_r. reflexivity.
  - cbn [Py.subscript]. rewrite Hd. reflexivity.
  - unfold attempt, bind, lift. rewrite Hget, Htruthy, Hname.
    cbn [Py.has]. rewrite Hcode, (print_shown _ _ Hfile).
    unfold open_w, bind, get_store, raise. cbn [say store]. rewrite Hrefused.
    reflexivity.
Qed.

Lemma refused_path_fails_the_step_witness :
  exists w',
    @execute_step reference 1 write_hello locked
      = (Ok (Some (false, "Permission denied")), w')
    /\ store w' = store locked
    /\ effects (log w') = effects (log locked).
Proof.
  apply (@refused_path_fails_the_step reference 1 _ (JStr "write") (JStr "Hello")
           "hello.txt" "Permission denied" locked); reflexivity.
Defined.

(** X11.  A file step whose code is not a text: the file is opened before
    the write is attempted, so the step fails and leaves the file empty,
    whatever it held before (rich showing the lines of the step and of the
    error). *)
Theorem non_text_code_empties_the_file `{platform : Platform}
    (i : nat) (fields : list (string * json)) (d code : json)
    (path : string) (w : world) :
  Py.lookup "description" fields = Some d ->
  is_command fields = false ->
  Py.lookup "code" fields = Some code ->
  (forall text, code <> JStr text) ->
  Py.get (JObj fields) "filename" (JStr "output.py") = Ok (JStr path) ->
  refused (store w) !! path = None ->
  prints (ExecutingStep i d) ->
  prints (CreatingFile (JStr path)) ->
  prints (StepError i (str_exn (TypeError code "write"))) ->
  exists w',
    execute_step i (JObj fields) w
      = (Ok (Some (false, str_exn (TypeError code "write"))), w')
    /\ files (store w') = <[path := EmptyString]> (files (store w)).
Proof.
  intros Hd Hflag Hcode Hnot Hname Hfree Hline Hfile Herror.
  destruct (get_is_command fields) as (flag & Hget & Htruthy).
  rewrite Hflag in Htruthy.
  rewrite (execute_step_handles i (JObj fields) d w
             (say (Opened path)
                (with_store (Disk (<[path := EmptyString]> (files (store w)))
                               (refused (store w)))
                   (say (CreatingFile (JStr path)) (say (ExecutingStep i d) w))))
             (TypeError code "write")); [| |exact Hline| |reflexivity].
  - rewrite Herror. eexists. split; reflexivity.
  - cbn [Py.subscript]. rewrite Hd. reflexivity.
  - unfold attempt, bind, lift. rewrite Hget, Htruthy, Hname.
    cbn [Py.has Py.subscript]. rewrite Hcode, (print_shown _ _ Hfile).
    unfold open_w, write, bind, get_store, set_store, emit, ret, raise.
    cbn [say with_store store refused files]. rewrite Hfree.
    destruct code as [| | |text| |]; try reflexivity.
    destruct (Hnot text eq_refl).
Qed.

Lemma non_text_code_empties_the_file_witness :
  files (store used) !! "hello.txt" = Some "old"
  /\ exists w',
       @execute_step reference 1 numeric_code used
         = (Ok (Some (false, "bad operand type for write")), w')
       /\ files (store w') = <["hello.txt" := EmptyString]> (files (store used)).
Proof.
  split; [reflexivity|].
  apply (@non_text_code_empties_the_file reference 1 _ (JStr "write")
           (JNum (Int 1)) "hello.txt" used); try reflexivity.
  intros text. discriminate.
Defined.

(** X12.  A command step without a usable command (the key is missing, or
    its value is not a text) never reaches the shell: whether the turn
    returns or raises, it does not complete, and the disk and the effects
    are as before. *)
Theorem unusable_command_never_reaches_the_shell `{platform : Platform}
    (i : nat) (fields : list (string * json)) (d : json) (w : world) :
  Py.lookup "description" fields = Some d ->
  is_command fields = true ->
  (forall c, Py.lookup "command" fields <> Some (JStr c)) ->
  (execute_step i (JObj fields) w).1 <> Ok None
  /\ store (execute_step i (JObj fields) w).2 = store w
  /\ effects (log (execute_step i (JObj fields) w).2) = effects (log w).
Proof.
  intros Hd Hflag Hnot.
  destruct (console (ExecutingStep i d)) as [e|] eqn:Hline.
  { assert (Hrun : execute_step i (JObj fields) w = (Raise e, w)).
    { unfold execute_step, bind, lift. cbn [Py.subscript]. rewrite Hd.
      rewrite (print_refused _ e _ Hline). reflexivity. }
    rewrite Hrun. split; [discriminate|split; reflexivity]. }
  assert (Htry : exists x,
            attempt (JObj fields) (say (ExecutingStep i d) w)
            = (Raise x, say (ExecutingStep i d) w)
            /\ catchable x = true).
  { destruct (get_is_command fields) as (flag & Hget & Htruthy).
    rewrite Hflag in Htruthy.
    unfold attempt, bind, lift. rewrite Hget, Htruthy. cbn [Py.subscript].
    destruct (Py.lookup "command" fields) as [[| | |c| |]|];
      try (destruct (Hnot c eq_refl)); eexists; split; reflexivity. }
  destruct Htry as (x & Htry & Hcatch).
  rewrite (execute_step_handles i (JObj fields) d w (say (ExecutingStep i d) w) x);
    [|cbn [Py.subscript]; rewrite Hd; reflexivity|exact Hline|exact Htry|exact Hcatch].
  destruct (console (StepError i (str_exn x))); cbn [fst snd say store log];
    (split; [discriminate|]); (split; [reflexivity|]);
    rewrite ?effects_app; cbn; rewrite ?app_nil_r; reflexivity.
Qed.

Lemma unusable_command_never_reaches_the_shell_witness :
  (@execute_step reference 1 commandless fresh).1
  = Ok (Some (false, "'command'"))
  /\ store (@execute_step reference 1 commandless fresh).2 = store fresh
  /\ effects (log (@execute_step reference 1 commandless fresh).2)
     = effects (log fresh).
Proof.
  split; [reflexivity|].
  apply (@unusable_command_never_reaches_the_shell reference 1 _ (JStr "run") fresh);
    try reflexivity.
  intros c. discriminate.
Defined.

(** X13.  How a step with a description can make [execute_plan] raise: the
    guarded block catches what the step raises, so an exception leaves the
    turn only when rich raises on the line that announces the step, which
    stands before the block, or on the line that reports the caught error,
    which stands in the handler (or when the run leaves what is described
    here). *)
Theorem described_step_raises_through_the_console `{platform : Platform}
    (i : nat) (step d : json) (w w' : world) (e : exn) :
  Py.subscript step "description" = Ok d ->
  execute_step i step w = (Raise e, w') ->
  console (ExecutingStep i d) = Some e
  \/ (exists x, console (StepError i (str_exn x)) = Some e)
  \/ catchable e = false.
Proof.
  intros Hd Hrun.
  destruct (execute_step_raises i step w w' e Hrun)
    as [Hmiss|[(d' & Hd' & Hline)|[Herror|Hbeyond]]]; auto.
  - congruence.
  - left. congruence.
Qed.

Lemma described_step_raises_through_the_console_witness :
  @execute_step reference 1 garbled_think fresh
  = (Raise (MarkupError "see [/a]"), fresh)
  /\ (@console reference (ExecutingStep 1 (JStr "see [/a]"))
      = Some (MarkupError "see [/a]")
      \/ (exists x, @console reference (StepError 1 (@str_exn reference x))
                    = Some (MarkupError "see [/a]"))
      \/ catchable (MarkupError "see [/a]") = false).
Proof.
  split; [reflexivity|].
  apply (@described_step_raises_through_the_console reference 1 garbled_think
           (JStr "see [/a]") fresh fresh (MarkupError "see [/a]"));
    reflexivity.
Defined.

(** X14.  An error that rich cannot show escapes the executor.  When rich
    raises on the panel of the command, the handler catches that and prints
    the message of the error; when rich raises on this line too (the message
    of a markup error quotes the markup at fault), the second exception
    leaves [execute_plan], although the first was raised inside the guarded
    block; the command has not been run. *)
Theorem unshowable_error_escapes `{platform : Platform}
    (i : nat) (step d : json) (command : string) (w : world) (x y : exn) :
  command_step step d command ->
  prints (ExecutingStep i d) ->
  console (ExecutingCommand command) = Some x ->
  catchable x = true ->
  console (StepError i (str_exn x)) = Some y ->
  execute_step i step w = (Raise y, say (ExecutingStep i d) w).
Proof.
  intros [fields dsc cmd Hd Hflag Hcmd] Hline Hpanel Hcatch Herror.
  destruct (get_is_command fields) as (flag & Hget & Htruthy).
  rewrite Hflag in Htruthy.
  rewrite (execute_step_handles i (JObj fields) dsc w
             (say (ExecutingStep i dsc) w) x); [| |exact Hline| |exact Hcatch].
  - rewrite Herror. reflexivity.
  - cbn [Py.subscript]. rewrite Hd. reflexivity.
  - unfold attempt, bind, lift. rewrite Hget, Htruthy.
    cbn [Py.subscript]. rewrite Hcmd. unfold panel_body, ret.
    rewrite (print_refused _ x _ Hpanel). reflexivity.
Qed.

Lemma unshowable_error_escapes_witness :
  exists y,
    @execute_step reference 1 slash_command fresh
    = (Raise (MarkupError y), say (ExecutingStep 1 (JStr "run")) fresh)
    /\ ran (log (@execute_step reference 1 slash_command fresh).2) = [].
Proof.
  eexists. split; [|reflexivity].
  apply (@unshowable_error_escapes reference 1 slash_command (JStr "run")
           "echo [/]" fresh (MarkupError "echo [/]")).
  - constructor; reflexivity.
  - reflexivity.
  - reflexivity.
  - reflexivity.
  - reflexivity.
Defined.

(** ** Further properties of the session *)

Section MoreSessionFacts.
Context `{platform : Platform}.









End MoreSessionFacts.



(** X16.  A response that parses to a value that is neither empty nor an
    object (a number, a text, a list of steps without the surrounding
    object) passes the test for a plan and then stops the program: the
    lookup of the plan description raises, uncaught, before anything is
    shown. *)
Theorem truthy_non_object_stops_the_program `{platform : Platform}
    (turns : nat) (task : string) (v : json) (w w1 : world) :
  get_plan task (say Generating w) = (Ok v, w1) ->
  Py.truthy v = true ->
  (forall fields, v <> JObj fields) ->
  main_loop (S turns) task w = (Raise (TypeError v "subscript"), w1).
Proof.
  intros Hget Htruthy Hnot.
  cbn [main_loop]. unfold bind at 1. cbn [emit].
  unfold bind at 1. rewrite Hget, Htruthy. cbn [negb].
  unfold bind at 1. unfold display_plan. unfold bind at 1, lift.
  destruct v as [| | | | |fields]; try reflexivity.
  destruct (Hnot fields eq_refl).
Qed.

Lemma truthy_non_object_stops_the_program_witness :
  @main_loop reference 2 "t" (boot [marked_doc] [true] [])
  = (Raise (TypeError (JNum (Int 1)) "subscript"),
     answered (PlanPrompt "t") (say Generating (boot [marked_doc] [true] []))).
Proof.
  apply (@truthy_non_object_stops_the_program reference 1 "t" (JNum (Int 1))).
  - vm_compute. reflexivity.
  - reflexivity.
  - intros fields. discriminate.
Defined.

(** ** What a session runs *)

Section VettedFacts.
Context `{platform : Platform}.














End VettedFacts.


(** ** The credential set-up *)

(** X18.  [setup_api] writes to no file but [.env], and there it only adds
    to the end: whether it returns or raises, every other path of the disk
    and the paths that cannot be opened are as before, the content [.env]
    had is the beginning of the content it has, and neither the model nor
    the yes-or-no answers of the operator are consumed. *)
Theorem setup_api_only_appends_to_env `{platform : Platform}
    (found : option string) (w : world) :
  let w' := (setup_api found w).2.2 in
  refused (store w') = refused (store w)
  /\ replies w' = replies w /\ confirms w' = confirms w
  /\ (forall path, path <> ".env" ->
        files (store w') !! path = files (store w) !! path)
  /\ exists added,
       default EmptyString (files (store w') !! ".env")
       = default EmptyString (files (store w) !! ".env") +:+ added.
Proof.
  cbv zeta.
  assert (Hsame : forall w0 : world,
            store w0 = store w -> replies w0 = replies w ->
            confirms w0 = confirms w ->
            refused (store w0) = refused (store w)
            /\ replies w0 = replies w /\ confirms w0 = confirms w
            /\ (forall path, path <> ".env" ->
                  files (store w0) !! path = files (store w) !! path)
            /\ exists added,
                 default EmptyString (files (store w0) !! ".env")
                 = default EmptyString (files (store w) !! ".env") +:+ added).
  { intros w0 -> -> ->. repeat split. exists EmptyString.
    symmetry. apply TextFacts.app_nil_r. }
  assert (Hprompt :
    (let r := match console_input "Enter your Gemini API key: " w with
              | (Raise e, w1) => ([KeyNotFound], (Raise e, w1))
              | (Ok key, w1) =>
                  match append_file ".env" (nl +:+ "GEMINI_API_KEY=" +:+ key) w1 with
                  | (Raise e, w2) => ([KeyNotFound], (Raise e, w2))
                  | (Ok _, w2) =>
                      ([KeyNotFound; KeySaved], (Ok (Handle key "gemini-2.0-flash"), w2))
                  end
              end in
     setup_api found w = r) \/
    setup_api found w
    = ([], (Ok (Handle (default EmptyString found) "gemini-2.0-flash"), w))).
  { destruct found as [[|c key]|]; [left; reflexivity|right; reflexivity|left; reflexivity]. }
  destruct Hprompt as [Hrun|Hrun]; rewrite Hrun; cbv zeta;
    [|apply Hsame; reflexivity].
  unfold console_input. destruct (typed w) as [|key rest];
    [apply Hsame; reflexivity|].
  unfold append_file, bind, lift, get_store, set_store, raise, with_store.
  cbn [store log replies confirms typed refused files].
  destruct (refused (store w) !! ".env") as [msg|];
    [apply Hsame; reflexivity|].
  destruct (encode (nl +:+ "GEMINI_API_KEY=" +:+ key)) as [bytes|e];
    cbn [fst snd store refused replies confirms files]; repeat split.
  - intros path Hpath. apply lookup_insert_ne. congruence.
  - exists bytes. rewrite lookup_insert_eq. reflexivity.
  - intros path Hpath. apply lookup_insert_ne. congruence.
  - exists EmptyString. rewrite lookup_insert_eq. cbn [default].
    symmetry. apply TextFacts.app_nil_r.
Qed.

(** X19.  The notice that the key was saved is truthful: when [setup_api]
    prints it, the operator has typed a key at the prompt, the line that
    assigns that key to [GEMINI_API_KEY] could be encoded, and [.env] now
    ends with its bytes. *)
Theorem saved_notice_means_key_is_in_env `{platform : Platform}
    (found : option string) (w : world) :
  In KeySaved (setup_api found w).1 ->
  exists key bytes before,
    head (typed w) = Some key
    /\ encode (nl +:+ "GEMINI_API_KEY=" +:+ key) = Ok bytes
    /\ files (store (setup_api found w).2.2) !! ".env" = Some (before +:+ bytes).
Proof.
  assert (Hprompt :
    (let r := match console_input "Enter your Gemini API key: " w with
              | (Raise e, w1) => ([KeyNotFound], (Raise e, w1))
              | (Ok key, w1) =>
                  match append_file ".env" (nl +:+ "GEMINI_API_KEY=" +:+ key) w1 with
                  | (Raise e, w2) => ([KeyNotFound], (Raise e, w2))
                  | (Ok _, w2) =>
                      ([KeyNotFound; KeySaved], (Ok (Handle key "gemini-2.0-flash"), w2))
                  end
              end in
     setup_api found w = r) \/
    setup_api found w
    = ([], (Ok (Handle (default EmptyString found) "gemini-2.0-flash"), w))).
  { destruct found as [[|c key]|]; [left; reflexivity|right; reflexivity|left; reflexivity]. }
  destruct Hprompt as [Hrun|Hrun]; rewrite Hrun; cbv zeta; [|intros []].
  unfold console_input. destruct (typed w) as [|key rest].
  { intros [H|[]]. discriminate H. }
  unfold append_file, bind, lift, get_store, set_store, raise, with_store.
  cbn [store log replies confirms typed refused files].
  destruct (refused (store w) !! ".env") as [msg|].
  { intros [H|[]]. discriminate H. }
  destruct (encode (nl +:+ "GEMINI_API_KEY=" +:+ key)) as [bytes|e] eqn:Hbytes.
  2:{ intros [H|[]]. discriminate H. }
  intros _. exists key, bytes, (default EmptyString (files (store w) !! ".env")).
  cbn [head fst snd store files].
  split; [reflexivity|split; [exact Hbytes|apply lookup_insert_eq]].
Qed.

Lemma saved_notice_means_key_is_in_env_witness :
  exists key bytes before,
    head (typed (boot [] [] ["k1"])) = Some key
    /\ demo_encode (nl +:+ "GEMINI_API_KEY=" +:+ key) = Ok bytes
    /\ files (store (@setup_api reference None (boot [] [] ["k1"])).2.2) !! ".env"
       = Some (before +:+ bytes).
Proof.
  apply (@saved_notice_means_key_is_in_env reference None (boot [] [] ["k1"])).
  vm_compute. right. left. reflexivity.
Defined.

(** ** The Fibonacci script *)

Lemma sequence_step (k : nat) :
  Fibonacci.sequence (S (S k))
  = (Fibonacci.sequence (S k) + Fibonacci.sequence k)%Z.
Proof. reflexivity. Qed.

(** The Fibonacci numbers are not negative and grow no faster than the
    powers of two. *)
Lemma sequence_bounds (k : nat) :
  (0 <= Fibonacci.sequence k <= 2 ^ Z.of_nat k)%Z
  /\ (0 <= Fibonacci.sequence (S k) <= 2 ^ Z.of_nat (S k))%Z.
Proof.
  induction k as [|k [IH0 IH1]].
  - split; cbn; lia.
  - split; [exact IH1|]. rewrite sequence_step.
    replace (Z.of_nat (S (S k))) with (Z.of_nat (S k) + 1)%Z by lia.
    rewrite Z.pow_add_r by lia.
    assert (H : (2 ^ Z.of_nat k <= 2 ^ Z.of_nat (S k))%Z)
      by (apply Z.pow_le_mono_r; lia).
    change (2 ^ 1)%Z with 2%Z.
    set (p := (2 ^ Z.of_nat (S k))%Z) in *. set (q := (2 ^ Z.of_nat k)%Z) in *.
    lia.
Qed.

Lemma small_numbers_print (a : Z) (k : nat) :
  (0 <= a <= 2 ^ Z.of_nat k)%Z -> (Z.of_nat k <= 14000)%Z ->
  Fibonacci.printable a = true.
Proof.
  intros [Hpos Hle] Hk. unfold Fibonacci.printable. apply Z.ltb_lt.
  rewrite Z.abs_eq by exact Hpos.
  apply (Z.le_lt_trans _ (2 ^ Z.of_nat k)); [exact Hle|].
  apply (Z.le_lt_trans _ (2 ^ 14000)).
  - apply Z.pow_le_mono_r; [reflexivity|exact Hk].
  - apply Z.ltb_lt. vm_compute. reflexivity.
Qed.

Lemma terms_sequence (count : nat) :
  forall k : nat,
  (Z.of_nat k + Z.of_nat count <= 14001)%Z ->
  Fibonacci.terms count (Fibonacci.sequence k) (Fibonacci.sequence (S k))
  = map Fibonacci.Number (map Fibonacci.sequence (seq k count)).
Proof.
  induction count as [|count IH]; intros k Hk; [reflexivity|].
  cbn [Fibonacci.terms seq map].
  rewrite (small_numbers_print (Fibonacci.sequence k) k);
    [|apply sequence_bounds|lia].
  f_equal. rewrite Z.add_comm, <- sequence_step. apply IH. lia.
Qed.

Lemma numbers_of_numbers (zs : list Z) :
  Fibonacci.numbers (map Fibonacci.Number zs) = zs
  /\ Fibonacci.crashed (map Fibonacci.Number zs) = false.
Proof.
  induction zs as [|z zs [IHn IHc]]; [split; reflexivity|].
  cbn [map]. unfold Fibonacci.numbers, Fibonacci.crashed in *.
  cbn [flat_map existsb orb]. rewrite IHn. split; [reflexivity|exact IHc].
Qed.

(** X20.  For every integer [n] up to 14000, the numbers [fibonacci(n)]
    prints are the first [n] Fibonacci numbers, from 0 on, in order (none
    when [n] is zero or negative), and no exception ends the script: the
    special case for 1 and the loop agree with the recurrence, and every
    number is short enough to be printed. *)
Theorem fibonacci_prints_the_first_terms (n : Z) :
  (n <= 14000)%Z ->
  Fibonacci.numbers (Fibonacci.fibonacci n)
  = map Fibonacci.sequence (seq 0 (Z.to_nat n))
  /\ Fibonacci.crashed (Fibonacci.fibonacci n) = false.
Proof.
  intros Hn. unfold Fibonacci.fibonacci.
  destruct (Z.leb_spec n 0) as [Hle|Hpos].
  - replace (Z.to_nat n) with 0%nat by lia. split; reflexivity.
  - destruct (Z.eqb_spec n 1) as [->|Hne]; [split; reflexivity|].
    change (Fibonacci.terms (Z.to_nat n) 0 1)
      with (Fibonacci.terms (Z.to_nat n)
              (Fibonacci.sequence 0) (Fibonacci.sequence 1)).
    rewrite terms_sequence by (rewrite Z2Nat.id; cbn; lia).
    destruct (numbers_of_numbers (map Fibonacci.sequence (seq 0 (Z.to_nat n))))
      as [Hnumbers Hclean].
    split; [exact Hnumbers|exact Hclean].
Qed.

Lemma fibonacci_prints_the_first_terms_witness :
  Fibonacci.numbers (Fibonacci.fibonacci 10) = [0; 1; 1; 2; 3; 5; 8; 13; 21; 34]%Z
  /\ Fibonacci.crashed (Fibonacci.fibonacci 10) = false.
Proof.
  destruct (fibonacci_prints_the_first_terms 10 ltac:(discriminate))
    as [Hnumbers Hclean].
  split; [rewrite Hnumbers; reflexivity|exact Hclean].
Defined.
